(** * AIVENTORY: demand forecasting and restock planning

    A shallow embedding of the forecasting-and-restock engine of
    [machine-learning/services/predict_product_arima.py] and of the batch
    selector of [machine-learning/services/arima_restock_prediction.py].

    Numbers.  Python [int]s are [Z].  Python [float]s are read as exact
    rationals [Q]: the planner only multiplies by constants, adds, compares
    and rounds, and the development follows those operations one by one
    ([np.ceil] is [Qceiling], [int(.)] truncates toward zero).  Comparisons
    are the boolean ones the code branches on.

    External numerics.  [statsmodels]' ARIMA fit, the [adfuller] test and
    [np.std] are not part of the repository; they are Section variables (a
    fit either raises or yields a model with a finite AIC and a forecast
    method, which may raise in turn).  A raised exception is [None]. *)

From Stdlib Require Import QArith Qround ZArith List Sorted Lia Lqa Bool.
From Stdlib Require Strings.String.
Import ListNotations.

Open Scope Q_scope.

(** ** Python builtins on numbers *)

Definition Qltb (a b : Q) : bool := negb (Qle_bool b a).

(** [max(a, b)] keeps [a] unless [b > a]; [min(a, b)] keeps [a] unless
    [b < a]. *)
Definition py_max (a b : Q) : Q := if Qltb a b then b else a.
Definition py_min (a b : Q) : Q := if Qltb b a then b else a.

(** [int(x)] on a float: truncation toward zero. *)
Definition py_int (x : Q) : Z :=
  if Qle_bool 0 x then Qfloor x else Qceiling x.

(** [x and p(x)] for an optional integer: [None] and [0] are falsy. *)
Definition truthy_and (x : option Z) (p : Z -> bool) : bool :=
  match x with
  | Some v => negb (v =? 0)%Z && p v
  | None => false
  end.

Definition get_or (d : Q) (x : option Q) : Q :=
  match x with Some v => v | None => d end.

(** ** Data model *)

Inductive Method : Set :=
| ARIMA | weighted_average | moving_average | intelligent_average | average.

Inductive Risk : Set := low | medium | high.

Definition Order : Set := (Z * Z * Z)%type.

(** The dictionary returned by the forecasters.  Keys that some tiers leave
    out are optional; [calculate_restock_suggestion] reads them with
    [.get(key, default)]. *)
Record ForecastResult : Set := mkForecast {
  forecast_demand : list Q;
  method : Method;
  params : option Order;
  avg_daily_demand : option Q;
  max_daily_demand : option Q;
  forecast_std : option Q;
  confidence_score : option Z
}.

Record Restock : Set := mkRestock {
  suggested_quantity : Z;
  days_until_stockout : option Z;
  daily_demand : Q;
  rs_max_daily_demand : Q;
  reorder_point : Z;
  safety_stock : Z;
  optimal_stock : Z;
  max_reasonable_stock : Z;
  rs_current_stock : Z;
  overstocking_risk : Risk;
  understocking_risk : Risk
}.

(** ** The restock planner ([calculate_restock_suggestion]) *)

Module Planner.

(** [days_until_depletion]: [None] unless demand is positive; [0] when the
    stock is not positive. *)
Definition days_until_depletion (avg : Q) (current_stock : Z) : option Z :=
  if Qltb 0 avg then
    Some (if (0 <? current_stock)%Z
          then Qceiling (inject_Z current_stock / avg)
          else 0%Z)
  else None.

Definition variability_buffer (std avg : Q) : Q :=
  if Qltb 0 std then py_min (std * (15 # 10)) (avg * (3 # 10))
  else avg * (2 # 10).

Definition required_stock (avg std : Q) (lead_time_days safety_days : Z) : Q :=
  let total_days := inject_Z (lead_time_days + safety_days) in
  let base_required_stock := avg * total_days in
  base_required_stock + variability_buffer std avg * total_days.

Definition max_reasonable (maxd : Q) (reorder_level : Z)
    (lead_time_days safety_days : Z) : Q :=
  let total_days := (lead_time_days + safety_days)%Z in
  py_max (maxd * inject_Z (total_days + 60)) (inject_Z (reorder_level * 5)).

(** The quantity after the ceiling clamp and the minimum-order floor, before
    the depletion override. *)
Definition floored_quantity (required max_reasonable_stock : Q)
    (current_stock reorder_level : Z) : Z :=
  let suggested := Z.max 0 (Qceiling (required - inject_Z current_stock)) in
  let max_restock := max_reasonable_stock - inject_Z current_stock in
  let suggested :=
    if Qltb max_restock (inject_Z suggested)
    then Z.max 0 (py_int max_restock) else suggested in
  if (suggested <? reorder_level)%Z then reorder_level else suggested.

Definition suggest (avg std maxd : Q)
    (current_stock reorder_level lead_time_days safety_days : Z) : Z :=
  let dud := days_until_depletion avg current_stock in
  let required := required_stock avg std lead_time_days safety_days in
  let mrs := max_reasonable maxd reorder_level lead_time_days safety_days in
  let suggested := floored_quantity required mrs current_stock reorder_level in
  if Qle_bool required (inject_Z current_stock) then
    if truthy_and dud (fun d => (d <=? lead_time_days + 3)%Z)
    then Z.max reorder_level (Qceiling (avg * inject_Z (lead_time_days + 3)))
    else 0%Z
  else suggested.

Definition overstock_label (optimal : Z) (mrs : Q) : Risk :=
  if Qle_bool (inject_Z optimal) mrs then low else medium.

Definition understock_label (dud : option Z)
    (lead_time_days safety_days : Z) : Risk :=
  if truthy_and dud (fun d => (lead_time_days + safety_days <? d)%Z) then low
  else if truthy_and dud (fun d => (d <=? lead_time_days)%Z) then high
  else medium.

Definition calculate_restock_suggestion (forecast_result : option ForecastResult)
    (current_stock reorder_level lead_time_days safety_days : Z)
  : option Restock :=
  match forecast_result with
  | None => None
  | Some fr =>
    let avg := get_or 0 (avg_daily_demand fr) in
    let maxd := get_or avg (max_daily_demand fr) in
    let std := get_or 0 (forecast_std fr) in
    let dud := days_until_depletion avg current_stock in
    let mrs := max_reasonable maxd reorder_level lead_time_days safety_days in
    let suggested :=
      suggest avg std maxd current_stock reorder_level
              lead_time_days safety_days in
    let optimal := (current_stock + suggested)%Z in
    Some {| suggested_quantity := suggested;
            days_until_stockout := dud;
            daily_demand := avg;
            rs_max_daily_demand := maxd;
            reorder_point :=
              Qceiling (avg * inject_Z (lead_time_days + safety_days));
            safety_stock := Qceiling (avg * inject_Z safety_days);
            optimal_stock := optimal;
            max_reasonable_stock := py_int mrs;
            rs_current_stock := current_stock;
            overstocking_risk := overstock_label optimal mrs;
            understocking_risk :=
              understock_label dud lead_time_days safety_days |}
  end.

End Planner.

(** ** Series helpers (pandas / numpy on a gap-free series) *)

Definition Qsum (l : list Q) : Q := fold_right Qplus 0 l.

Definition len {A : Type} (l : list A) : Z := Z.of_nat (length l).

Definition mean (l : list Q) : Q := Qsum l / inject_Z (len l).

(** [range(n)] *)
Definition range (n : Z) : list Z := map Z.of_nat (seq 0 (Z.to_nat n)).

(** [ts.diff().dropna()]: each value minus its predecessor. *)
Fixpoint diff (ts : list Q) : list Q :=
  match ts with
  | a :: (b :: _) as tl => (b - a) :: diff tl
  | _ => []
  end.

(** [ts.tail(n)] *)
Definition tail (n : Z) (ts : list Q) : list Q :=
  skipn (length ts - Z.to_nat n) ts.

(** [[x] * n] *)
Definition replicate (x : Q) (n : Z) : list Q := repeat x (Z.to_nat n).

Definition series_max (l : list Q) : Q :=
  match l with
  | [] => 0
  | x :: r => fold_left py_max r x
  end.

(** ** Stationarity, differencing, model selection *)

(** A fitted [statsmodels] model: its AIC and its [forecast(steps)] method,
    which may raise ([None]). *)
Record FittedModel : Type := mkFitted {
  aic : Q;
  forecast : Z -> option (list Q)
}.

Definition Best : Type := option (Q * FittedModel * Order).

(** *** Parts shared by both selectors

    [test_stationarity] and [make_stationary] are the same in both files, and
    so is the body of the search loop. *)

Section Selection.

(** [adfuller(ts)[1]], the p-value; [None] when the test raises. *)
Variable adfuller_pvalue : list Q -> option Q.
(** [ARIMA(ts, order).fit()]; [None] when the fit raises. *)
Variable arima_fit : list Q -> Order -> option FittedModel.

Definition test_stationarity (ts : list Q) : bool :=
  match adfuller_pvalue ts with
  | Some p => Qle_bool p (5 # 100)
  | None => false
  end.

Definition make_stationary (ts : list Q) : list Q :=
  match diff ts with
  | [] => ts
  | d => d
  end.

(** One pass of the search loop: a failed fit leaves the best unchanged; a
    fit replaces it only when its AIC is strictly lower ([best_aic] starts
    at infinity, here an empty best). *)
Definition try_candidate (ts : list Q) (best : Best) (c : Order) : Best :=
  match arima_fit ts c with
  | Some fitted =>
      match best with
      | None => Some (aic fitted, fitted, c)
      | Some (best_aic, _, _) =>
          if Qltb (aic fitted) best_aic then Some (aic fitted, fitted, c)
          else best
      end
  | None => best
  end.

Definition search (ts : list Q) (param_combinations : list Order) : Best :=
  fold_left (try_candidate ts) param_combinations None.

End Selection.

Definition grid (d : Z) (ps qs : list Z) : list Order :=
  flat_map (fun p => map (fun q => (p, d, q)) qs) ps.

Definition reduced_set (d : Z) : list Order :=
  [ (0, d, 0); (1, d, 0); (0, d, 1); (1, d, 1); (2, d, 0); (0, d, 2) ]%Z.

(** ** The single-product forecaster ([predict_product_arima.py]) *)

Module Single.
Section Oracles.

Variable adfuller_pvalue : list Q -> option Q.
Variable arima_fit : list Q -> Order -> option FittedModel.
(** [np.std] *)
Variable np_std : list Q -> Q.

(** The differencing decision: the series handed to the fits, and [d]. *)
Definition differencing (ts : list Q) : list Q * Z :=
  if negb (test_stationarity adfuller_pvalue ts) then
    let ts_diff := make_stationary ts in
    if (3 <=? len ts_diff)%Z then (ts_diff, 1%Z) else (ts, 0%Z)
  else (ts, 0%Z).

Definition param_combinations (ts : list Q) (d max_p max_q : Z) : list Order :=
  if (len ts <? 12)%Z then reduced_set d
  else grid d (range (Z.min (max_p + 1) 3)) (range (Z.min (max_q + 1) 3)).

Definition fit_arima_model (ts : list Q) (max_p max_d max_q : Z)
  : option FittedModel * option Order * option (list Q) :=
  if (len ts <? 6)%Z then (None, None, None)
  else
    let original_ts := ts in
    let '(ts, d) := differencing ts in
    match search arima_fit ts (param_combinations ts d max_p max_q) with
    | Some (_, best_model, best_params) =>
        (Some best_model, Some best_params, Some original_ts)
    | None => (None, None, Some original_ts)
    end.

(** A transaction row of the product: its date (a day number) and its
    quantity. *)
Definition Row : Set := (Z * Q)%type.

Definition date_range (lo hi : Z) : list Z :=
  map (fun i => (lo + Z.of_nat i)%Z) (seq 0 (Z.to_nat (hi - lo + 1))).

(** The quantity sold on day [t]: the [groupby(...).sum()] entry of [t], and
    [0] (the fill value) on a day without rows. *)
Definition sold_on (product_data : list Row) (t : Z) : Q :=
  Qsum (map snd (filter (fun r => (fst r =? t)%Z) product_data)).

Definition has_row (product_data : list Row) (t : Z) : bool :=
  existsb (fun r => (fst r =? t)%Z) product_data.

Definition count_positive (l : list Q) : Z :=
  len (filter (fun x => Qltb 0 x) l).

Definition first_day (product_data : list Row) : Z :=
  match map fst product_data with
  | [] => 0%Z
  | d0 :: ds => fold_left Z.min ds d0
  end.

Definition last_day (product_data : list Row) : Z :=
  match map fst product_data with
  | [] => 0%Z
  | d0 :: ds => fold_left Z.max ds d0
  end.

(** [groupby('transaction_date')['transaction_qty'].sum().sort_index()]:
    one total per date that has a row, in date order. *)
Definition grouped_sales (product_data : list Row) : list Q :=
  map (sold_on product_data)
      (filter (has_row product_data)
              (date_range (first_day product_data) (last_day product_data))).

(** The same series reindexed over every day from the first to the last
    date, [fill_value = 0]. *)
Definition gap_filled (product_data : list Row) : list Q :=
  map (sold_on product_data)
      (date_range (first_day product_data) (last_day product_data)).

Definition forecast_product_sales (product_data : list Row) (days_ahead : Z)
  : option ForecastResult :=
  if (len product_data <? 3)%Z then None
  else
    let daily_sales := grouped_sales product_data in
    let total_sales := Qsum daily_sales in
    let total_transactions := len product_data in
    let total_days :=
      if (0 <? len daily_sales)%Z
      then (last_day product_data - first_day product_data + 1)%Z
      else 0%Z in
    let max_daily :=
      if (0 <? len daily_sales)%Z then series_max daily_sales else 0 in
    if negb (0 <? len daily_sales)%Z then None
    else
      let daily_sales := gap_filled product_data in
      if (6 <=? len daily_sales)%Z then
        let fallback :=
          let '(avg_daily, method, confidence) :=
            if (7 <=? len daily_sales)%Z then
              (mean (tail (Z.min 30 (len daily_sales)) daily_sales),
               weighted_average, 70%Z)
            else (mean daily_sales, moving_average, 68%Z) in
          Some {| forecast_demand := replicate (py_max 0 avg_daily) days_ahead;
                  method := method;
                  params := None;
                  avg_daily_demand := Some avg_daily;
                  max_daily_demand := Some max_daily;
                  forecast_std := None;
                  confidence_score := Some confidence |} in
        match fit_arima_model daily_sales 3 2 3 with
        | (Some model, params, _) =>
            match forecast model days_ahead with
            | Some fc =>
                let fc := map (py_max 0) fc in
                let avg_daily_demand := mean fc in
                let forecast_std :=
                  if (1 <? len fc)%Z then np_std fc else 0 in
                Some {| forecast_demand := fc;
                        method := ARIMA;
                        params := params;
                        avg_daily_demand := Some avg_daily_demand;
                        max_daily_demand := Some max_daily;
                        forecast_std := Some forecast_std;
                        confidence_score := Some 85%Z |}
            | None => fallback
            end
        | (None, _, _) => fallback
        end
      else
        let active_days := count_positive daily_sales in
        let avg_daily :=
          if (0 <? active_days)%Z then total_sales / inject_Z active_days
          else mean daily_sales in
        let avg_daily :=
          if (0 <? total_transactions)%Z && (0 <? total_days)%Z then
            let transaction_rate :=
              inject_Z total_transactions / inject_Z total_days in
            let avg_per_transaction :=
              total_sales / inject_Z total_transactions in
            let estimated_daily := transaction_rate * avg_per_transaction in
            py_max avg_daily estimated_daily
          else avg_daily in
        Some {| forecast_demand := replicate (py_max 0 avg_daily) days_ahead;
                method := intelligent_average;
                params := None;
                avg_daily_demand := Some avg_daily;
                max_daily_demand := Some max_daily;
                forecast_std := None;
                confidence_score := Some 65%Z |}.

End Oracles.
End Single.

(** ** The batch forecaster ([arima_restock_prediction.py]) *)

Module Batch.
Section Oracles.

Variable adfuller_pvalue : list Q -> option Q.
Variable arima_fit : list Q -> Order -> option FittedModel.

Definition differencing (ts : list Q) : list Q * Z :=
  if negb (test_stationarity adfuller_pvalue ts)
  then (make_stationary ts, 1%Z) else (ts, 0%Z).

Definition param_combinations (d max_p max_q : Z) : list Order :=
  grid d (range (max_p + 1)) (range (max_q + 1)).

Definition fit_arima_model (ts : list Q) (max_p max_d max_q : Z)
  : option FittedModel * option Order :=
  if (len ts <? 12)%Z then (None, None)
  else
    let '(ts, d) := differencing ts in
    match search arima_fit ts (param_combinations d max_p max_q) with
    | Some (_, best_model, best_params) => (Some best_model, Some best_params)
    | None => (None, None)
    end.

(** The result dictionary has the keys [forecast], [method] and [params]
    only; the statistics keys are absent. *)
Definition forecast_product (monthly_sales : list Q) (months_ahead : Z)
  : option ForecastResult :=
  if (len monthly_sales <? 6)%Z then None
  else
    match fit_arima_model monthly_sales 3 2 3 with
    | (None, _) =>
        Some (mkForecast (replicate (mean monthly_sales) months_ahead)
                         moving_average None None None None None)
    | (Some model, params) =>
        match forecast model months_ahead with
        | Some fc =>
            Some (mkForecast (map (py_max 0) fc) ARIMA params
                             None None None None)
        | None =>
            Some (mkForecast (replicate (mean monthly_sales) months_ahead)
                             average None None None None None)
        end
    end.

End Oracles.
End Batch.

(** ** The batch report ([analyze_restock_predictions] and its helper) *)

Module Report.

(** [calculate_restock_quantity]: the monthly forecast is spread over 30
    days; [reorder_level] is accepted and not read.  On an empty forecast
    [np.mean] is NaN, every later float is NaN, [max(0, NaN)] keeps its
    first argument 0 and the result is 0.  (A requirement too large for a
    float raises at [int(np.ceil(.))]; exact rationals have no such
    value.) *)
Definition calculate_restock_quantity (forecast_values : list Q)
    (current_stock reorder_level lead_time_days safety_days : Z) : Z :=
  match forecast_values with
  | [] => 0%Z
  | _ :: _ =>
    let avg_monthly_demand := mean forecast_values in
    let avg_daily_demand := avg_monthly_demand / 30 in
    let total_days := (lead_time_days + safety_days)%Z in
    let required_stock := avg_daily_demand * inject_Z total_days in
    let restock_qty := py_max 0 (required_stock - inject_Z current_stock) in
    Qceiling restock_qty
  end.

(** The restock plan of one product: one quantity per forecast month, the
    stock taken to be at the reorder level 10. *)
Definition monthly_restock (forecast_values : list Q) : list (Q * Z) :=
  map (fun forecast_qty =>
         let reorder_level := 10%Z in
         (forecast_qty,
          calculate_restock_quantity [forecast_qty] reorder_level
                                     reorder_level 7 14))
      forecast_values.

Inductive Status : Set := SPIKE | DIP | NORMAL.

(** The status of a month against the thresholds of 20% above and below
    the average monthly total. *)
Definition month_status (avg_monthly_sales forecasted : Q) : Status :=
  let spike_threshold := avg_monthly_sales * (12 # 10) in
  let dip_threshold := avg_monthly_sales * (8 # 10) in
  if Qle_bool spike_threshold forecasted then SPIKE
  else if Qle_bool forecasted dip_threshold then DIP
  else NORMAL.

Definition month_statuses (totals : list Q) : list Status :=
  map (month_status (mean totals)) totals.

Inductive Priority : Set := HIGH | MEDIUM | LOW.

Definition priority (avg_forecast : Q) : Priority :=
  if Qle_bool 30 avg_forecast then HIGH
  else if Qle_bool 15 avg_forecast then MEDIUM
  else LOW.

End Report.

(** ** The batch driver ([predict_all_products.py]) *)

Module Driver.

Inductive PredictionMethod : Set := ARIMA_method | AI_Enhanced.

Record Prediction : Set := mkPrediction {
  product_id : Z;
  pr_forecast : ForecastResult;
  pr_restock : Restock;
  prediction_method : PredictionMethod
}.

Section Oracles.

Variable adfuller_pvalue : list Q -> option Q.
Variable arima_fit : list Q -> Order -> option FittedModel.
Variable np_std : list Q -> Q.
(** The rows the forecaster reads from the CSV for a product id. *)
Variable rows_of : Z -> list Single.Row.

(** A prediction as the loop of the driver builds it: the forecast of the
    product's rows over 30 days, the plan for that forecast at the default
    stock 0 and reorder level 10, and the method label.  The counters, the
    prints and the [except] branch of the loop are not modelled. *)
Definition made_for (p : Prediction) : Prop :=
  Single.forecast_product_sales adfuller_pvalue arima_fit np_std
      (rows_of (product_id p)) 30 = Some (pr_forecast p) /\
  Planner.calculate_restock_suggestion (Some (pr_forecast p)) 0 10 7 14
    = Some (pr_restock p) /\
  (prediction_method p = ARIMA_method <-> method (pr_forecast p) = ARIMA).

End Oracles.
End Driver.

(** ** Synthetic product ids ([prepare_motorparts_dataset.py]) *)

Module Dataset.

(** The dictionary [product_ids], in insertion order. *)
Definition Ids : Set := list (String.string * Z).

Fixpoint lookup (name : String.string) (d : Ids) : option Z :=
  match d with
  | [] => None
  | (k, v) :: rest => if String.eqb name k then Some v else lookup name rest
  end.

(** One pass of the loop over [combined["product_name"]]. *)
Definition assign (st : Ids * Z * list Z) (name : String.string)
  : Ids * Z * list Z :=
  let '(product_ids, next_id, ids) := st in
  match lookup name product_ids with
  | Some id => (product_ids, next_id, ids ++ [id])
  | None => (product_ids ++ [(name, next_id)], (next_id + 1)%Z,
             ids ++ [next_id])
  end.

Definition assign_product_ids (names : list String.string) : list Z :=
  snd (fold_left assign names ([], 1%Z, [])).

(** What the loop state satisfies after the names [seen]: the ids issued
    so far are the dictionary entries of their names, the dictionary is
    injective and its values lie below [next_id]. *)
Record Assigned (seen : list String.string) (st : Ids * Z * list Z) : Prop := {
  ids_of_names :
    Forall2 (fun name id => lookup name (fst (fst st)) = Some id)
            seen (snd st);
  ids_injective :
    forall a b v, lookup a (fst (fst st)) = Some v ->
                  lookup b (fst (fst st)) = Some v -> a = b;
  ids_in_range :
    forall a v, lookup a (fst (fst st)) = Some v ->
                (1 <= v < snd (fst st))%Z;
  next_id_bound : (1 <= snd (fst st) <= 1 + len seen)%Z
}.

End Dataset.

(** ** Vocabulary of the statements *)

(** The order "p ascending outer, q ascending inner". *)
Definition pq_lt (c1 c2 : Order) : Prop :=
  let '(p1, _, q1) := c1 in
  let '(p2, _, q2) := c2 in
  (p1 < p2 \/ (p1 = p2 /\ q1 < q2))%Z.

(** No candidate that ties with [best] on AIC comes before it in that
    order. *)
Definition ties_broken_by_pq_order
    (arima_fit : list Q -> Order -> option FittedModel)
    (ts : list Q) (candidates : list Order) (best : Order) : Prop :=
  forall c m mb,
    In c candidates -> arima_fit ts c = Some m -> arima_fit ts best = Some mb ->
    aic m == aic mb -> ~ pq_lt c best.

(** [best] is the first candidate of minimal AIC among the fits of
    [candidates] that succeed. *)
Definition first_minimum
    (arima_fit : list Q -> Order -> option FittedModel)
    (ts : list Q) (candidates : list Order) (best : Best) : Prop :=
  match best with
  | None => forall c, In c candidates -> arima_fit ts c = None
  | Some (a, m, c) =>
      exists before after,
        candidates = before ++ c :: after /\
        arima_fit ts c = Some m /\ a = aic m /\
        (forall c' m', In c' before -> arima_fit ts c' = Some m' ->
                       aic m < aic m') /\
        (forall c' m', In c' after -> arima_fit ts c' = Some m' ->
                       aic m <= aic m')
  end.

(** The confidence table of the tiers. *)
Definition tier_confidence (m : Method) : option Z :=
  match m with
  | ARIMA => Some 85%Z
  | weighted_average => Some 70%Z
  | moving_average => Some 68%Z
  | intelligent_average => Some 65%Z
  | average => None
  end.

(** The average of the intelligent-average tier, as the code computes
    it. *)
Definition intelligent_avg (product_data : list Single.Row) : Q :=
  let daily_sales := Single.gap_filled product_data in
  let total_sales := Qsum (Single.grouped_sales product_data) in
  let active_days := Single.count_positive daily_sales in
  py_max
    (if (0 <? active_days)%Z then total_sales / inject_Z active_days
     else mean daily_sales)
    (inject_Z (len product_data)
       / inject_Z (Single.last_day product_data
                   - Single.first_day product_data + 1)
     * (total_sales / inject_Z (len product_data))).

(** ** Concrete inputs *)

Module Inputs.

(** A forecast of zero demand. *)
Definition zero_forecast : ForecastResult :=
  mkForecast (replicate 0 30) weighted_average None (Some 0) (Some 0) None
             (Some 70%Z).

(** Ten days, a row of quantity 0 on each. *)
Definition ten_zero_days : list Single.Row :=
  map (fun t => (t, 0)) (range 10).

(** Demand 1 per day, nothing in stock. *)
Definition stocked_out : ForecastResult :=
  mkForecast (replicate 1 30) weighted_average None (Some 1) (Some 1) None
             (Some 70%Z).

(** Demand 10 per day forecast for a product whose best historical day
    sold 1. *)
Definition demand_above_history : ForecastResult :=
  mkForecast (replicate 10 30) ARIMA (Some (0, 0, 0)%Z) (Some 10) (Some 1)
             (Some 0) (Some 85%Z).

(** Fits that tie at AIC 5 on (1,d,0) and (0,d,1) and fail elsewhere. *)
Definition tie_fit : list Q -> Order -> option FittedModel :=
  fun _ c =>
    match c with
    | (1, _, 0)%Z | (0, _, 1)%Z => Some (mkFitted 5 (fun _ => None))
    | _ => None
    end.

Definition six_days : list Q := [1; 2; 3; 4; 5; 6].
Definition no_pvalue : list Q -> option Q := fun _ => None.
Definition no_fit : list Q -> Order -> option FittedModel := fun _ _ => None.
Definition zero_std : list Q -> Q := fun _ => 0.

(** Six months, the first with net returns of 6 units. *)
Definition net_returns : list Q := [-6; 0; 0; 0; 0; 0].

Definition twelve_days : list Q := [3; 1; 4; 1; 5; 9; 2; 6; 5; 3; 5; 8].

(** Seven days, one unit returned on each. *)
Definition week_of_returns : list Single.Row :=
  [(1%Z, -1); (2%Z, -1); (3%Z, -1); (4%Z, -1); (5%Z, -1); (6%Z, -1);
   (7%Z, -1)].

Definition week_of_sales : list Single.Row :=
  [(1%Z, 2); (2%Z, 0); (3%Z, 4); (3%Z, 1); (7%Z, 7)].

End Inputs.

Import Inputs.

(** * Properties *)

(** ** Boolean comparisons *)

Lemma Qltb_true (a b : Q) : Qltb a b = true <-> a < b.
Proof.
  unfold Qltb. rewrite negb_true_iff, <- not_true_iff_false, Qle_bool_iff.
  split; [apply Qnot_le_lt | apply Qlt_not_le].
Qed.

Lemma Qltb_false (a b : Q) : Qltb a b = false <-> b <= a.
Proof.
  unfold Qltb. rewrite negb_false_iff, Qle_bool_iff. reflexivity.
Qed.

Lemma Qle_bool_false (a b : Q) : Qle_bool a b = false <-> b < a.
Proof.
  rewrite <- not_true_iff_false, Qle_bool_iff.
  split; [apply Qnot_le_lt | apply Qlt_not_le].
Qed.

Ltac qcases :=
  repeat match goal with
  | |- context [Qltb ?a ?b] =>
      let E := fresh "E" in
      destruct (Qltb a b) eqn:E;
      [apply Qltb_true in E | apply Qltb_false in E]
  | |- context [Qle_bool ?a ?b] =>
      let E := fresh "E" in
      destruct (Qle_bool a b) eqn:E;
      [apply Qle_bool_iff in E | apply Qle_bool_false in E]
  end.

Lemma py_max_ge_l (a b : Q) : a <= py_max a b.
Proof. unfold py_max. qcases; lra. Qed.

Lemma py_max_ge_r (a b : Q) : b <= py_max a b.
Proof. unfold py_max. qcases; lra. Qed.

Lemma py_min_le_l (a b : Q) : py_min a b <= a.
Proof. unfold py_min. qcases; lra. Qed.

Lemma py_min_le_r (a b : Q) : py_min a b <= b.
Proof. unfold py_min. qcases; lra. Qed.

(** ** The restock planner *)

Module PlannerFacts.
Import Planner.

Lemma buffer_zero_demand (std avg : Q) :
  avg == 0 -> variability_buffer std avg == 0.
Proof.
  intros H. unfold variability_buffer, py_min.
  destruct (Qltb 0 std) eqn:S; [apply Qltb_true in S | lra].
  qcases; lra.
Qed.

Lemma required_zero_demand (avg std : Q) (lead safety : Z) :
  avg == 0 -> required_stock avg std lead safety == 0.
Proof.
  intros H. unfold required_stock.
  rewrite (buffer_zero_demand std avg H), H. ring.
Qed.

Lemma days_zero_demand (avg : Q) (cs : Z) :
  avg == 0 -> days_until_depletion avg cs = None.
Proof.
  intros H. unfold days_until_depletion.
  destruct (Qltb 0 avg) eqn:E; [apply Qltb_true in E; lra | reflexivity].
Qed.

(** The minimum-order floor is the last step before the override. *)
Lemma floored_quantity_ge (required mrs : Q) (cs rl : Z) :
  (rl <= floored_quantity required mrs cs rl)%Z.
Proof.
  unfold floored_quantity.
  match goal with |- context [(?x <? rl)%Z] => destruct (Z.ltb_spec x rl) end;
    lia.
Qed.

Lemma inject_Z_nonneg (z : Z) : (0 <= z)%Z <-> 0 <= inject_Z z.
Proof. rewrite (Zle_Qle 0 z). reflexivity. Qed.

(** C1, as stated, fails: ten days of zero sales forecast a demand of 0
    (no ARIMA candidate fitting), and with [currentStock = 0] and
    [reorderLevel = 10] the planner suggests 0, not 10. *)
Lemma zero_demand_zero_stock_suggests_nothing :
  option_map suggested_quantity
    (calculate_restock_suggestion
       (Single.forecast_product_sales no_pvalue no_fit zero_std
                                      ten_zero_days 30)
       0 10 7 14)
  <> Some 10%Z.
Proof. vm_compute. discriminate. Qed.

(** C1 (amended): with [avgDailyDemand = 0] the required stock is 0, so the
    depletion override applies as soon as [currentStock >= 0] and the
    suggested quantity is 0 (the days until depletion are undefined); the
    floor to [reorderLevel] survives only for a negative [currentStock]. *)
Theorem zero_demand_suggestion
    (fr : ForecastResult) (cs rl lead safety : Z) (r : Restock) :
  get_or 0 (avg_daily_demand fr) == 0 ->
  calculate_restock_suggestion (Some fr) cs rl lead safety = Some r ->
  ((0 <= cs)%Z -> suggested_quantity r = 0%Z) /\
  ((cs < 0)%Z -> (rl <= suggested_quantity r)%Z).
Proof.
  intros Havg Hr. cbn in Hr. injection Hr as <-. cbn [suggested_quantity].
  set (avg := get_or 0 (avg_daily_demand fr)) in *.
  set (std := get_or 0 (forecast_std fr)).
  set (maxd := get_or avg (max_daily_demand fr)).
  unfold suggest.
  pose proof (required_zero_demand avg std lead safety Havg) as Hreq.
  rewrite (days_zero_demand avg cs Havg). cbn [truthy_and].
  destruct (Qle_bool (required_stock avg std lead safety) (inject_Z cs)) eqn:E;
    [apply Qle_bool_iff in E | apply Qle_bool_false in E].
  - split; [reflexivity |].
    intros Hneg. exfalso.
    rewrite Hreq in E. apply inject_Z_nonneg in E. lia.
  - split.
    + intros Hpos. exfalso.
      rewrite Hreq in E. apply inject_Z_nonneg in Hpos. lra.
    + intros _. apply floored_quantity_ge.
Qed.

Lemma zero_demand_suggestion_witness :
  ((0 <= 0)%Z ->
   suggested_quantity
     (mkRestock 0 None 0 0 0 0 0 50 0 low medium) = 0%Z) /\
  ((0 < 0)%Z ->
   (10 <= suggested_quantity
            (mkRestock 0 None 0 0 0 0 0 50 0 low medium))%Z).
Proof.
  apply (zero_demand_suggestion zero_forecast 0 10 7 14).
  - reflexivity.
  - reflexivity.
Defined.

(** C3, as stated, fails at [forecastStd = 0]: raising the deviation from 0
    to 1/100 at demand 10 lowers the buffer from 2 to 3/200. *)
Lemma buffer_drops_leaving_zero :
  ~ (0 <= 0 -> 0 <= 1 # 100 ->
     variability_buffer 0 10 <= variability_buffer (1 # 100) 10).
Proof.
  intros H. assert (0 <= 0) as H0 by lra. assert (0 <= 1 # 100) as H1 by lra.
  specialize (H H0 H1). vm_compute in H. apply H. reflexivity.
Qed.

(** C3 (amended): holding [avgDailyDemand] fixed, for every pair of
    deviations with the smaller one strictly positive the buffer does not
    decrease, and once the smaller one has reached the cap of 0.3 x
    [avgDailyDemand] both buffers equal the cap. *)
Theorem buffer_monotone (avg s1 s2 : Q) :
  0 < s1 -> s1 <= s2 ->
  variability_buffer s1 avg <= variability_buffer s2 avg /\
  (avg * (3 # 10) <= s1 * (15 # 10) ->
   variability_buffer s1 avg == avg * (3 # 10) /\
   variability_buffer s2 avg == avg * (3 # 10)).
Proof.
  intros Hpos Hle. unfold variability_buffer.
  assert (Qltb 0 s1 = true) as -> by (apply Qltb_true; exact Hpos).
  assert (Qltb 0 s2 = true) as -> by (apply Qltb_true; lra).
  unfold py_min. split; [| intros Hcap; split]; qcases; lra.
Qed.

Lemma buffer_monotone_witness :
  variability_buffer 1 10 <= variability_buffer 2 10 /\
  (10 * (3 # 10) <= 1 * (15 # 10) ->
   variability_buffer 1 10 == 10 * (3 # 10) /\
   variability_buffer 2 10 == 10 * (3 # 10)).
Proof.
  apply (buffer_monotone 10 1 2).
  - reflexivity.
  - discriminate.
Defined.

(** The overstocking label compares the target stock with the untruncated
    ceiling. *)
Lemma overstock_label_low (optimal : Z) (mrs : Q) :
  overstock_label optimal mrs = low <-> inject_Z optimal <= mrs.
Proof.
  unfold overstock_label. qcases; split; intros H;
    try reflexivity; try discriminate; lra.
Qed.

Lemma overstock_label_medium (optimal : Z) (mrs : Q) :
  overstock_label optimal mrs = medium <-> mrs < inject_Z optimal.
Proof.
  unfold overstock_label. qcases; split; intros H;
    try reflexivity; try discriminate; lra.
Qed.

Lemma overstock_label_not_high (optimal : Z) (mrs : Q) :
  overstock_label optimal mrs <> high.
Proof. unfold overstock_label. qcases; discriminate. Qed.

(** The understocking label when the days until depletion are known and not
    zero. *)
Lemma understock_label_positive (d lead safety : Z) :
  d <> 0%Z ->
  understock_label (Some d) lead safety =
    if (lead + safety <? d)%Z then low
    else if (d <=? lead)%Z then high else medium.
Proof.
  intros Hd. unfold understock_label, truthy_and.
  destruct (Z.eqb_spec d 0) as [->|_]; [contradiction | reflexivity].
Qed.

Lemma understock_label_undefined (lead safety : Z) :
  understock_label None lead safety = medium.
Proof. reflexivity. Qed.

(** A zero is falsy: it is labelled like an undefined value. *)
Lemma understock_label_zero (lead safety : Z) :
  understock_label (Some 0%Z) lead safety = medium.
Proof. reflexivity. Qed.

(** C4 at [daysUntilDepletion = 0]: the stock is empty, demand is positive,
    the days until depletion are 0 <= [leadTimeDays], and the understocking
    label is 'medium'. *)
Theorem stocked_out_is_labelled_medium :
  option_map (fun r => (days_until_stockout r, understocking_risk r))
    (calculate_restock_suggestion (Some stocked_out) 0 10 7 14)
  = Some (Some 0%Z, medium).
Proof. reflexivity. Qed.

(** Scenario D: the stock covers the requirement and lasts beyond the
    lead-time and safety window (with a safety window of at least 3 days,
    as the default 14): nothing is ordered and the understocking risk is
    low. *)
Lemma well_stocked_orders_nothing
    (fr : ForecastResult) (cs rl lead safety d : Z) (r : Restock) :
  let avg := get_or 0 (avg_daily_demand fr) in
  let std := get_or 0 (forecast_std fr) in
  calculate_restock_suggestion (Some fr) cs rl lead safety = Some r ->
  (0 <= lead)%Z -> (3 <= safety)%Z ->
  required_stock avg std lead safety <= inject_Z cs ->
  days_until_stockout r = Some d -> (lead + safety < d)%Z ->
  suggested_quantity r = 0%Z /\ understocking_risk r = low.
Proof.
  intros avg std Hr Hlead Hsafe Hreq Hd Hfar.
  cbn in Hr. injection Hr as <-. cbn in Hd |- *.
  fold avg std. fold avg in Hd. rewrite Hd. unfold suggest.
  fold avg std. rewrite Hd.
  apply Qle_bool_iff in Hreq. rewrite Hreq.
  unfold understock_label, truthy_and.
  destruct (Z.eqb_spec d 0); [lia |]. cbn [negb andb].
  destruct (Z.leb_spec d (lead + 3)); [lia |].
  destruct (Z.ltb_spec (lead + safety) d); [| lia].
  split; reflexivity.
Qed.

(** C9: whenever [currentStock < requiredStock] the suggested quantity is at
    least [reorderLevel], whatever the overstock ceiling, and the
    overstocking label is 'medium' exactly when the target stock exceeds
    the ceiling; that does happen: with demand 10, historical maximum 1,
    stock 100 and reorder level 10 the ceiling is 81, the order is 10 and
    the target stock 110. *)
Theorem floor_follows_ceiling_clamp :
  (forall (fr : ForecastResult) (cs rl lead safety : Z) (r : Restock),
     let avg := get_or 0 (avg_daily_demand fr) in
     let std := get_or 0 (forecast_std fr) in
     let maxd := get_or avg (max_daily_demand fr) in
     calculate_restock_suggestion (Some fr) cs rl lead safety = Some r ->
     inject_Z cs < required_stock avg std lead safety ->
     (rl <= suggested_quantity r)%Z /\
     optimal_stock r = (cs + suggested_quantity r)%Z /\
     (max_reasonable maxd rl lead safety < inject_Z (optimal_stock r) ->
      overstocking_risk r = medium)) /\
  (exists r : Restock,
     calculate_restock_suggestion (Some demand_above_history) 100 10 7 14
       = Some r /\
     inject_Z 100 < required_stock 10 0 7 14 /\
     max_reasonable 1 10 7 14 - inject_Z 100 < inject_Z 10 /\
     suggested_quantity r = 10%Z /\
     max_reasonable 1 10 7 14 < inject_Z (optimal_stock r) /\
     overstocking_risk r = medium).
Proof.
  split.
  - intros fr cs rl lead safety r avg std maxd Hr Hlt.
    cbn in Hr. injection Hr as <-. cbn. fold avg std maxd.
    split; [| split].
    + unfold suggest. apply Qle_bool_false in Hlt. rewrite Hlt.
      apply floored_quantity_ge.
    + reflexivity.
    + apply overstock_label_medium.
  - eexists. split; [reflexivity |].
    repeat split; vm_compute; reflexivity.
Qed.

Lemma floor_follows_ceiling_clamp_witness :
  (10 <= 10)%Z /\ (110 = 100 + 10)%Z /\
  (max_reasonable 1 10 7 14 < inject_Z 110 -> medium = medium).
Proof.
  apply (proj1 floor_follows_ceiling_clamp
           demand_above_history 100%Z 10%Z 7%Z 14%Z
           (mkRestock 10 (Some 10%Z) 10 1 210 140 110 81 100 medium medium)).
  - reflexivity.
  - reflexivity.
Defined.

End PlannerFacts.

(** ** Model selection *)

Module SelectionFacts.

Section Search.

Variable arima_fit : list Q -> Order -> option FittedModel.
Variable ts : list Q.

Lemma first_minimum_step (seen : list Order) (best : Best) (c : Order) :
  first_minimum arima_fit ts seen best ->
  first_minimum arima_fit ts (seen ++ [c]) (try_candidate arima_fit ts best c).
Proof.
  unfold try_candidate. destruct (arima_fit ts c) as [fitted|] eqn:Hc.
  - destruct best as [[[a m] c0]|]; cbn.
    + intros (l1 & l2 & -> & Hfit & -> & Hl1 & Hl2).
      destruct (Qltb (aic fitted) (aic m)) eqn:E.
      * apply Qltb_true in E. exists (l1 ++ c0 :: l2), [].
        repeat split; auto.
        -- intros c' m' Hin Hc'. apply in_app_or in Hin as [Hin|[<-|Hin]].
           ++ specialize (Hl1 _ _ Hin Hc'). lra.
           ++ rewrite Hfit in Hc'. injection Hc' as <-. exact E.
           ++ specialize (Hl2 _ _ Hin Hc'). lra.
        -- intros c' m' [].
      * apply Qltb_false in E. exists l1, (l2 ++ [c]).
        repeat split; auto.
        -- rewrite <- app_assoc. reflexivity.
        -- intros c' m' Hin Hc'. apply in_app_or in Hin as [Hin|[<-|[]]].
           ++ exact (Hl2 _ _ Hin Hc').
           ++ rewrite Hc in Hc'. injection Hc' as <-. exact E.
    + intros Hall. exists seen, []. repeat split; auto.
      * intros c' m' Hin Hc'. rewrite (Hall _ Hin) in Hc'. discriminate.
      * intros c' m' [].
  - destruct best as [[[a m] c0]|]; cbn.
    + intros (l1 & l2 & -> & Hfit & -> & Hl1 & Hl2).
      exists l1, (l2 ++ [c]). repeat split; auto.
      * rewrite <- app_assoc. reflexivity.
      * intros c' m' Hin Hc'. apply in_app_or in Hin as [Hin|[<-|[]]].
        -- exact (Hl2 _ _ Hin Hc').
        -- rewrite Hc in Hc'. discriminate.
    + intros Hall c' Hin. apply in_app_or in Hin as [Hin|[<-|[]]]; auto.
Qed.

Lemma first_minimum_fold (cs seen : list Order) (best : Best) :
  first_minimum arima_fit ts seen best ->
  first_minimum arima_fit ts (seen ++ cs)
                (fold_left (try_candidate arima_fit ts) cs best).
Proof.
  revert seen best. induction cs as [|c cs IH]; intros seen best H; cbn.
  - rewrite app_nil_r. exact H.
  - replace (seen ++ c :: cs) with ((seen ++ [c]) ++ cs)
      by (rewrite <- app_assoc; reflexivity).
    apply IH, first_minimum_step, H.
Qed.

Lemma search_first_minimum (cs : list Order) :
  first_minimum arima_fit ts cs (search arima_fit ts cs).
Proof.
  unfold search. apply (first_minimum_fold cs [] None). intros c [].
Qed.

Lemma search_none_iff (cs : list Order) :
  search arima_fit ts cs = None <->
  (forall c, In c cs -> arima_fit ts c = None).
Proof.
  pose proof (search_first_minimum cs) as H.
  destruct (search arima_fit ts cs) as [[[a m] c]|]; cbn in H.
  - split; [discriminate |].
    intros Hall. destruct H as (l1 & l2 & -> & Hfit & _).
    rewrite Hall in Hfit; [discriminate | apply in_elt].
  - split; auto.
Qed.

End Search.

(** *** The candidate lists *)

Lemma in_range (x n : Z) : In x (range n) <-> (0 <= x < n)%Z.
Proof.
  unfold range. rewrite in_map_iff. split.
  - intros (k & <- & Hk). apply in_seq in Hk. lia.
  - intros H. exists (Z.to_nat x). split; [lia | apply in_seq; lia].
Qed.

Lemma of_nat_seq_sorted (a k : nat) :
  StronglySorted Z.lt (map Z.of_nat (seq a k)).
Proof.
  revert a. induction k as [|k IH]; intros a; cbn; constructor.
  - apply IH.
  - apply Forall_forall. intros x Hx.
    apply in_map_iff in Hx as (j & <- & Hj). apply in_seq in Hj. lia.
Qed.

Lemma range_sorted (n : Z) : StronglySorted Z.lt (range n).
Proof. apply of_nat_seq_sorted. Qed.

Lemma in_grid (d : Z) (ps qs : list Z) (p d' q : Z) :
  In (p, d', q) (grid d ps qs) <-> d' = d /\ In p ps /\ In q qs.
Proof.
  unfold grid. rewrite in_flat_map. split.
  - intros (p0 & Hp & Hin). apply in_map_iff in Hin as (q0 & Heq & Hq).
    injection Heq as -> -> ->. auto.
  - intros (-> & Hp & Hq). exists p. split; [exact Hp |].
    apply in_map_iff. exists q. auto.
Qed.

Lemma sorted_app {A : Type} (R : A -> A -> Prop) (l1 l2 : list A) :
  StronglySorted R l1 -> StronglySorted R l2 ->
  (forall x y, In x l1 -> In y l2 -> R x y) ->
  StronglySorted R (l1 ++ l2).
Proof.
  induction l1 as [|a l1 IH]; intros H1 H2 H12; cbn; [exact H2 |].
  apply StronglySorted_inv in H1 as [H1 Ha]. constructor.
  - apply IH; auto. intros x y Hx Hy. apply H12; [right; exact Hx | exact Hy].
  - apply Forall_app. split; [exact Ha |].
    apply Forall_forall. intros y Hy. apply H12; [left; reflexivity | exact Hy].
Qed.

Lemma sorted_after {A : Type} (R : A -> A -> Prop) (l1 l2 : list A) (x : A) :
  StronglySorted R (l1 ++ x :: l2) -> Forall (R x) l2.
Proof.
  induction l1 as [|a l1 IH]; cbn; intros H;
    apply StronglySorted_inv in H as [H Ha]; auto.
Qed.

Lemma row_sorted (d p : Z) (qs : list Z) :
  StronglySorted Z.lt qs ->
  StronglySorted pq_lt (map (fun q => (p, d, q)) qs).
Proof.
  induction 1 as [|q qs Hs IH Hq]; cbn; constructor; auto.
  apply Forall_forall. intros c Hc.
  apply in_map_iff in Hc as (q' & <- & Hq').
  rewrite Forall_forall in Hq. specialize (Hq _ Hq'). cbn. lia.
Qed.

(** The grid is enumerated with p ascending in the outer loop and q
    ascending in the inner loop. *)
Lemma grid_sorted (d : Z) (ps qs : list Z) :
  StronglySorted Z.lt ps -> StronglySorted Z.lt qs ->
  StronglySorted pq_lt (grid d ps qs).
Proof.
  intros Hps Hqs. induction Hps as [|p ps Hs IH Hp]; cbn; [constructor |].
  apply sorted_app; [apply row_sorted, Hqs | exact IH |].
  intros x [[p2 d2] q2] Hx Hy.
  apply in_map_iff in Hx as (q1 & <- & Hq1).
  apply (in_grid d ps qs) in Hy as (_ & Hp2 & _).
  rewrite Forall_forall in Hp. specialize (Hp _ Hp2). cbn. lia.
Qed.

Lemma pq_lt_asym (c1 c2 : Order) : pq_lt c1 c2 -> ~ pq_lt c2 c1.
Proof. destruct c1 as [[p1 d1] q1], c2 as [[p2 d2] q2]. cbn. lia. Qed.

Lemma pq_lt_irrefl (c : Order) : ~ pq_lt c c.
Proof. destruct c as [[p d] q]. cbn. lia. Qed.

Lemma first_minimum_sorted_ties
    (arima_fit : list Q -> Order -> option FittedModel)
    (ts : list Q) (cs : list Order) (a : Q) (mb : FittedModel) (best : Order) :
  StronglySorted pq_lt cs ->
  first_minimum arima_fit ts cs (Some (a, mb, best)) ->
  ties_broken_by_pq_order arima_fit ts cs best.
Proof.
  intros Hs (l1 & l2 & -> & Hfit & -> & Hl1 & Hl2) c m mb' Hin Hc Hb Htie.
  rewrite Hfit in Hb. injection Hb as <-.
  apply in_app_or in Hin as [Hin|[<-|Hin]].
  - specialize (Hl1 _ _ Hin Hc). lra.
  - apply pq_lt_irrefl.
  - apply sorted_after in Hs. rewrite Forall_forall in Hs.
    apply pq_lt_asym, Hs, Hin.
Qed.

(** C5, as stated, fails for the single-product selector: on a series of 12
    observations with [maxP = maxQ = 3] the order (3,d,0) of the exhaustive
    grid is not enumerated. *)
Lemma grid_stops_at_two :
  ~ (forall p q : Z, (0 <= p <= 3)%Z -> (0 <= q <= 3)%Z ->
       In (p, 0%Z, q) (Single.param_combinations (repeat 0 12) 0 3 3)).
Proof.
  intros H. specialize (H 3%Z 0%Z ltac:(lia) ltac:(lia)).
  vm_compute in H.
  repeat (destruct H as [H|H]; [discriminate H |]). exact H.
Qed.

(** C5 (amended): on a series of at least 12 observations (after the
    differencing decision) the single-product selector enumerates the grid
    p in [0, min(maxP, 2)] x q in [0, min(maxQ, 2)] with the fixed d, p
    ascending outside and q ascending inside; on a shorter series exactly
    the six candidates (0,d,0), (1,d,0), (0,d,1), (1,d,1), (2,d,0), (0,d,2)
    in that order.  The batch selector enumerates the whole grid
    p in [0, maxP] x q in [0, maxQ], in the same loop order. *)
Theorem candidate_enumeration (ts : list Q) (d max_p max_q : Z) :
  ((12 <= len ts)%Z ->
   (forall p d' q,
      In (p, d', q) (Single.param_combinations ts d max_p max_q) <->
      d' = d /\ (0 <= p <= Z.min max_p 2)%Z /\ (0 <= q <= Z.min max_q 2)%Z) /\
   StronglySorted pq_lt (Single.param_combinations ts d max_p max_q)) /\
  ((len ts < 12)%Z ->
   Single.param_combinations ts d max_p max_q =
   [ (0, d, 0); (1, d, 0); (0, d, 1); (1, d, 1); (2, d, 0); (0, d, 2) ]%Z) /\
  (forall p d' q,
     In (p, d', q) (Batch.param_combinations d max_p max_q) <->
     d' = d /\ (0 <= p <= max_p)%Z /\ (0 <= q <= max_q)%Z) /\
  StronglySorted pq_lt (Batch.param_combinations d max_p max_q).
Proof.
  unfold Single.param_combinations, Batch.param_combinations.
  split; [| split; [| split]].
  - intros Hlen. destruct (Z.ltb_spec (len ts) 12); [lia |]. split.
    + intros p d' q. rewrite in_grid, !in_range. lia.
    + apply grid_sorted; apply range_sorted.
  - intros Hlen. destruct (Z.ltb_spec (len ts) 12); [reflexivity | lia].
  - intros p d' q. rewrite in_grid, !in_range. lia.
  - apply grid_sorted; apply range_sorted.
Qed.

Lemma candidate_enumeration_witness :
  StronglySorted pq_lt (Single.param_combinations (repeat 0 12) 0 3 3) /\
  Single.param_combinations (repeat 0 6) 1 3 3 =
  [ (0, 1, 0); (1, 1, 0); (0, 1, 1); (1, 1, 1); (2, 1, 0); (0, 1, 2) ]%Z.
Proof.
  split.
  - apply (proj1 (candidate_enumeration (repeat 0 12) 0 3 3)). discriminate.
  - apply (proj1 (proj2 (candidate_enumeration (repeat 0 6) 1 3 3))).
    reflexivity.
Defined.

(** C7, as stated, fails on the reduced set: when the fits of (1,d,0) and
    (0,d,1) tie for the lowest AIC the selector returns (1,d,0), the one
    listed first, although (0,d,1) comes first with p ascending outside and
    q ascending inside. *)
Lemma reduced_set_tie_goes_to_listed_order :
  snd (fst (Single.fit_arima_model no_pvalue tie_fit six_days 3 2 3))
    = Some (1, 1, 0)%Z /\
  ~ ties_broken_by_pq_order tie_fit (diff six_days) (reduced_set 1) (1, 1, 0)%Z.
Proof.
  split; [reflexivity |].
  intros H.
  apply (H (0, 1, 1)%Z (mkFitted 5 (fun _ => None)) (mkFitted 5 (fun _ => None))).
  - cbn. auto.
  - reflexivity.
  - reflexivity.
  - reflexivity.
  - cbn. lia.
Qed.

(** C7 (amended): for every candidate list the selector returns the
    candidate of minimal AIC among those whose fit succeeds, ties going to
    the candidate met first in the order of the list (which is p ascending
    outside, q ascending inside for a grid, and the listed order for the
    reduced set); a fit that raises is skipped, and the result is [None]
    exactly when every candidate failed to fit. *)
Theorem search_selects_first_minimum
    (adfuller_pvalue : list Q -> option Q)
    (arima_fit : list Q -> Order -> option FittedModel)
    (ts : list Q) (cs : list Order) :
  first_minimum arima_fit ts cs (search arima_fit ts cs) /\
  (search arima_fit ts cs = None <->
   (forall c, In c cs -> arima_fit ts c = None)) /\
  (StronglySorted pq_lt cs ->
   forall a mb best,
     search arima_fit ts cs = Some (a, mb, best) ->
     ties_broken_by_pq_order arima_fit ts cs best) /\
  (forall max_p max_d max_q,
     (6 <= len ts)%Z ->
     let ts' := fst (Single.differencing adfuller_pvalue ts) in
     let d := snd (Single.differencing adfuller_pvalue ts) in
     fst (fst (Single.fit_arima_model adfuller_pvalue arima_fit ts
                                      max_p max_d max_q)) = None <->
     (forall c, In c (Single.param_combinations ts' d max_p max_q) ->
                arima_fit ts' c = None)).
Proof.
  split; [apply search_first_minimum |].
  split; [apply search_none_iff |].
  split.
  - intros Hs a mb best Hbest.
    apply (first_minimum_sorted_ties arima_fit ts cs a mb best Hs).
    rewrite <- Hbest. apply search_first_minimum.
  - intros max_p max_d max_q Hlen ts' d.
    unfold Single.fit_arima_model.
    destruct (Z.ltb_spec (len ts) 6); [lia |].
    subst ts' d. destruct (Single.differencing adfuller_pvalue ts) as [ts' d].
    cbn [fst snd]. rewrite <- search_none_iff.
    destruct (search arima_fit ts' _) as [[[a m] c]|]; cbn;
      split; intros; try discriminate; reflexivity.
Qed.

Lemma search_selects_first_minimum_witness :
  ties_broken_by_pq_order tie_fit six_days (grid 0 (range 3) (range 3))
                          (0, 0, 1)%Z.
Proof.
  apply (proj1 (proj2 (proj2
           (search_selects_first_minimum no_pvalue tie_fit six_days
              (grid 0 (range 3) (range 3)))))
           (grid_sorted 0 (range 3) (range 3) (range_sorted 3) (range_sorted 3))
           5 (mkFitted 5 (fun _ => None))).
  reflexivity.
Defined.

Lemma diff_length (ts : list Q) : length (diff ts) = pred (length ts).
Proof.
  induction ts as [|a [|b tl] IH]; cbn in *; try reflexivity.
  rewrite IH. reflexivity.
Qed.

(** C10: the 12-observation threshold is tested on the series after
    differencing.  A non-stationary series of exactly 12 observations is
    differenced to 11 observations with d = 1, and the reduced set of six
    candidates is the one searched. *)
Theorem threshold_applies_after_differencing
    (adfuller_pvalue : list Q -> option Q)
    (arima_fit : list Q -> Order -> option FittedModel)
    (ts : list Q) (max_p max_d max_q : Z) :
  len ts = 12%Z ->
  test_stationarity adfuller_pvalue ts = false ->
  Single.differencing adfuller_pvalue ts = (diff ts, 1%Z) /\
  len (diff ts) = 11%Z /\
  Single.param_combinations (diff ts) 1 max_p max_q = reduced_set 1 /\
  Single.fit_arima_model adfuller_pvalue arima_fit ts max_p max_d max_q =
    match search arima_fit (diff ts) (reduced_set 1) with
    | Some (_, best_model, best_params) =>
        (Some best_model, Some best_params, Some ts)
    | None => (None, None, Some ts)
    end.
Proof.
  intros Hlen Hns.
  assert (len (diff ts) = 11%Z) as Hd
    by (unfold len in *; rewrite diff_length; lia).
  assert (Single.differencing adfuller_pvalue ts = (diff ts, 1%Z)) as Hdiff.
  { unfold Single.differencing, make_stationary. rewrite Hns. cbn [negb].
    destruct (diff ts) as [|x l] eqn:E; [discriminate Hd |].
    rewrite Hd. reflexivity. }
  assert (Single.param_combinations (diff ts) 1 max_p max_q = reduced_set 1)
    as Hpc by (unfold Single.param_combinations; rewrite Hd; reflexivity).
  repeat split; auto.
  unfold Single.fit_arima_model. rewrite Hlen, Hdiff, Hpc. reflexivity.
Qed.

Lemma threshold_applies_after_differencing_witness :
  Single.differencing no_pvalue twelve_days = (diff twelve_days, 1%Z) /\
  len (diff twelve_days) = 11%Z /\
  Single.param_combinations (diff twelve_days) 1 3 3 = reduced_set 1 /\
  Single.fit_arima_model no_pvalue tie_fit twelve_days 3 2 3 =
    match search tie_fit (diff twelve_days) (reduced_set 1) with
    | Some (_, best_model, best_params) =>
        (Some best_model, Some best_params, Some twelve_days)
    | None => (None, None, Some twelve_days)
    end.
Proof.
  apply (threshold_applies_after_differencing no_pvalue tie_fit twelve_days
           3 2 3).
  - reflexivity.
  - reflexivity.
Defined.

End SelectionFacts.

(** ** The forecasters *)

Module ForecastFacts.

Lemma replicate_forall (P : Q -> Prop) (x : Q) (n : Z) :
  P x -> Forall P (replicate x n).
Proof.
  intros H. unfold replicate. apply Forall_forall.
  intros y Hy. apply repeat_spec in Hy. subst y. exact H.
Qed.

Lemma clamp_forall (fc : list Q) : Forall (fun v => 0 <= v) (map (py_max 0) fc).
Proof.
  apply Forall_forall. intros y Hy. apply in_map_iff in Hy as (x & <- & _).
  apply py_max_ge_l.
Qed.

Lemma py_max_clamp_id (x : Q) : 0 <= x -> py_max 0 x == x.
Proof. intros H. unfold py_max. qcases; lra. Qed.

Section Oracles.

Variable adfuller_pvalue : list Q -> option Q.
Variable arima_fit : list Q -> Order -> option FittedModel.
Variable np_std : list Q -> Q.

(** Every tier of the single-product forecaster clamps its output. *)
Lemma single_forecast_nonneg (product_data : list Single.Row) (days_ahead : Z)
    (r : ForecastResult) :
  Single.forecast_product_sales adfuller_pvalue arima_fit np_std
      product_data days_ahead = Some r ->
  Forall (fun v => 0 <= v) (forecast_demand r).
Proof.
  unfold Single.forecast_product_sales. cbv zeta.
  repeat match goal with
  | |- context [if ?b then _ else _] => destruct b
  | |- context [match ?x with Some _ => _ | None => _ end] => destruct x
  | |- context [let '(_, _) := ?x in _] => destruct x
  end; intros H; try discriminate; injection H as <-; cbn;
    first [apply clamp_forall | apply replicate_forall, py_max_ge_l].
Qed.

(** The ARIMA tier of the batch forecaster clamps as well. *)
Lemma batch_arima_nonneg (monthly_sales : list Q) (months_ahead : Z)
    (r : ForecastResult) :
  Batch.forecast_product adfuller_pvalue arima_fit monthly_sales months_ahead
    = Some r ->
  method r = ARIMA ->
  Forall (fun v => 0 <= v) (forecast_demand r).
Proof.
  unfold Batch.forecast_product.
  repeat match goal with
  | |- context [if ?b then _ else _] => destruct b
  | |- context [match ?x with Some _ => _ | None => _ end] => destruct x
  | |- context [let '(_, _) := ?x in _] => destruct x
  end; intros H; try discriminate; injection H as <-; cbn;
    intros Hm; try discriminate; apply clamp_forall.
Qed.

Lemma Qsum_nonneg (l : list Q) : Forall (fun v => 0 <= v) l -> 0 <= Qsum l.
Proof.
  induction 1 as [|x l Hx _ IH]; cbn; [lra |].
  change 0 with (0 + 0). apply Qplus_le_compat; assumption.
Qed.

Lemma mean_nonneg (l : list Q) : Forall (fun v => 0 <= v) l -> 0 <= mean l.
Proof.
  intros H. unfold mean, Qdiv. apply Qmult_le_0_compat.
  - apply Qsum_nonneg, H.
  - apply Qinv_le_0_compat. unfold len.
    rewrite <- (Zle_Qle 0). lia.
Qed.

(** The fallbacks of the batch forecaster repeat the mean as it is, so the
    batch forecast is non-negative on a series without negative months. *)
Lemma batch_nonneg_on_nonneg_sales (monthly_sales : list Q) (months_ahead : Z)
    (r : ForecastResult) :
  Forall (fun v => 0 <= v) monthly_sales ->
  Batch.forecast_product adfuller_pvalue arima_fit monthly_sales months_ahead
    = Some r ->
  Forall (fun v => 0 <= v) (forecast_demand r).
Proof.
  intros Hpos. unfold Batch.forecast_product.
  repeat match goal with
  | |- context [if ?b then _ else _] => destruct b
  | |- context [match ?x with Some _ => _ | None => _ end] => destruct x
  | |- context [let '(_, _) := ?x in _] => destruct x
  end; intros H; try discriminate; injection H as <-; cbn;
    first [apply clamp_forall | apply replicate_forall, mean_nonneg, Hpos].
Qed.

(** C2 on the batch forecaster: a series of six months whose first month
    has net returns of 6 units has mean -1; no fit is attempted below 12
    observations, and the moving-average forecast repeats -1 unclamped. *)
Theorem batch_moving_average_goes_negative :
  exists r,
    Batch.forecast_product adfuller_pvalue arima_fit net_returns 12 = Some r /\
    method r = moving_average /\
    Forall (fun v => v == -1) (forecast_demand r) /\
    ~ Forall (fun v => 0 <= v) (forecast_demand r).
Proof.
  eexists. split; [reflexivity |].
  cbn [method forecast_demand]. split; [reflexivity |]. split.
  - apply replicate_forall. vm_compute. reflexivity.
  - intros H. apply Forall_inv in H. vm_compute in H. apply H. reflexivity.
Qed.

(** C6: fewer than 3 rows for the product: no result. *)
Theorem too_few_rows_no_forecast (product_data : list Single.Row)
    (days_ahead : Z) :
  (len product_data < 3)%Z ->
  Single.forecast_product_sales adfuller_pvalue arima_fit np_std
      product_data days_ahead = None.
Proof.
  intros H. unfold Single.forecast_product_sales.
  destruct (Z.ltb_spec (len product_data) 3); [reflexivity | lia].
Qed.

(** *** The grouped series of a product with at least one row is not
    empty *)

Lemma fold_min_in (ds : list Z) (d0 : Z) : In (fold_left Z.min ds d0) (d0 :: ds).
Proof.
  revert d0. induction ds as [|d ds IH]; intros d0; cbn; [auto |].
  destruct (IH (Z.min d0 d)) as [H|H]; [| auto].
  rewrite <- H. destruct (Z.min_spec d0 d) as [[_ ->]|[_ ->]]; auto.
Qed.

Lemma fold_min_le (ds : list Z) (d0 : Z) : (fold_left Z.min ds d0 <= d0)%Z.
Proof.
  revert d0. induction ds as [|d ds IH]; intros d0; cbn; [lia |].
  specialize (IH (Z.min d0 d)). lia.
Qed.

Lemma fold_max_ge (ds : list Z) (d0 : Z) : (d0 <= fold_left Z.max ds d0)%Z.
Proof.
  revert d0. induction ds as [|d ds IH]; intros d0; cbn; [lia |].
  specialize (IH (Z.max d0 d)). lia.
Qed.

Lemma in_date_range (lo hi t : Z) :
  In t (Single.date_range lo hi) <-> (lo <= t <= hi)%Z.
Proof.
  unfold Single.date_range. rewrite in_map_iff. split.
  - intros (k & <- & Hk). apply in_seq in Hk. lia.
  - intros H. exists (Z.to_nat (t - lo)). split; [lia | apply in_seq; lia].
Qed.

Lemma grouped_nonempty (product_data : list Single.Row) :
  product_data <> [] ->
  (0 <? len (Single.grouped_sales product_data))%Z = true.
Proof.
  intros Hne. apply Z.ltb_lt.
  unfold Single.grouped_sales, len. rewrite length_map.
  set (lo := Single.first_day product_data).
  set (hi := Single.last_day product_data).
  assert (In lo (map fst product_data) /\ (lo <= hi)%Z) as [Hin Hle].
  { unfold lo, hi, Single.first_day, Single.last_day.
    destruct product_data as [|r rs]; [contradiction |]. cbn [map].
    split; [apply fold_min_in |].
    pose proof (fold_min_le (map fst rs) (fst r)).
    pose proof (fold_max_ge (map fst rs) (fst r)). lia. }
  assert (In lo (filter (Single.has_row product_data)
                        (Single.date_range lo hi))) as Hf.
  { apply filter_In. split; [apply in_date_range; lia |].
    unfold Single.has_row. apply existsb_exists.
    apply in_map_iff in Hin as (r & Hr & Hin).
    exists r. split; [exact Hin | apply Z.eqb_eq, Hr]. }
  destruct (filter _ _); [destruct Hf | cbn; lia].
Qed.

Lemma tail_is_suffix (n : Z) (l : list Q) :
  (0 <= n <= len l)%Z ->
  exists older, l = older ++ tail n l /\ Z.of_nat (length (tail n l)) = n.
Proof.
  intros Hn. unfold tail, len in *.
  exists (firstn (length l - Z.to_nat n) l). split.
  - symmetry. apply firstn_skipn.
  - rewrite length_skipn. lia.
Qed.

Lemma mean_times_length (l : list Q) :
  l <> [] ->
  mean l * inject_Z (Z.of_nat (length l)) == fold_right Qplus 0 l.
Proof.
  intros Hne. unfold mean, len, Qsum. field.
  destruct l as [|x l]; [contradiction |].
  intros H. assert (0 < inject_Z (Z.of_nat (length (x :: l)))) as Hp.
  { rewrite <- (Zlt_Qlt 0). cbn [length]. lia. }
  rewrite H in Hp. discriminate Hp.
Qed.

Lemma clamp_values (avg : Q) :
  (0 < avg -> py_max 0 avg = avg) /\ (avg <= 0 -> py_max 0 avg = 0).
Proof.
  unfold py_max. destruct (Qltb 0 avg) eqn:E;
    [apply Qltb_true in E | apply Qltb_false in E]; split; intros H;
    try reflexivity; lra.
Qed.

(** C8, as stated, fails on a series with a negative average: seven days
    of one returned unit each average -1, no ARIMA candidate fits, and the
    weighted-average forecast repeats 0, not the average. *)
Lemma negative_average_is_not_repeated :
  exists r,
    Single.forecast_product_sales no_pvalue no_fit zero_std
                                  week_of_returns 30 = Some r /\
    method r = weighted_average /\
    avg_daily_demand r = Some (mean (Single.gap_filled week_of_returns)) /\
    mean (Single.gap_filled week_of_returns) == -1 /\
    forecast_demand r = repeat 0 30 /\
    ~ Forall (fun v => v == mean (Single.gap_filled week_of_returns))
             (forecast_demand r).
Proof.
  eexists. split; [reflexivity |]. cbn [method avg_daily_demand forecast_demand].
  split; [reflexivity |]. split; [reflexivity |]. split; [reflexivity |].
  split; [reflexivity |].
  intros Hall. apply Forall_inv in Hall. vm_compute in Hall.
  discriminate Hall.
Qed.

(** C8 (amended): when the selector returns no model, or the model's
    forecast raises, on a gap-filled series of N >= 6 days, the forecast
    has one value per horizon step and every value is max(0, average): the
    average itself when it is positive and 0 otherwise, the unclamped
    average being reported as [avg_daily_demand].  With N >= 7 the average
    is the sum of the last min(30, N) days divided by their number, the
    method is [weighted_average] and the confidence 70; with N = 6 it is
    the mean of all days, the method is [moving_average] and the
    confidence 68.  In every tier the confidence is the constant of the
    tier's table. *)
Theorem fallback_tiers (product_data : list Single.Row) (days_ahead : Z) :
  (forall r, Single.forecast_product_sales adfuller_pvalue arima_fit np_std
      product_data days_ahead = Some r ->
             confidence_score r = tier_confidence (method r)) /\
  (let daily_sales := Single.gap_filled product_data in
   (3 <= len product_data)%Z -> (6 <= len daily_sales)%Z ->
   match fst (fst (Single.fit_arima_model adfuller_pvalue arima_fit
                                          daily_sales 3 2 3)) with
   | Some model => forecast model days_ahead = None
   | None => True
   end ->
   exists r avg,
     Single.forecast_product_sales adfuller_pvalue arima_fit np_std
      product_data days_ahead = Some r /\
     avg_daily_demand r = Some avg /\
     Z.of_nat (length (forecast_demand r)) = Z.max 0 days_ahead /\
     Forall (fun v => (0 < avg -> v = avg) /\ (avg <= 0 -> v = 0))
            (forecast_demand r) /\
     ((7 <= len daily_sales)%Z ->
      (exists older recent,
         daily_sales = older ++ recent /\
         Z.of_nat (length recent)
           = Z.min 30 (Z.of_nat (length daily_sales)) /\
         avg * inject_Z (Z.of_nat (length recent))
           == fold_right Qplus 0 recent) /\
      method r = weighted_average /\ confidence_score r = Some 70%Z) /\
     ((len daily_sales < 7)%Z ->
      avg * inject_Z (Z.of_nat (length daily_sales))
        == fold_right Qplus 0 daily_sales /\
      method r = moving_average /\ confidence_score r = Some 68%Z)).
Proof.
  split.
  - intros r. unfold Single.forecast_product_sales.
    cbv zeta.
    repeat match goal with
    | |- context [if ?b then _ else _] => destruct b
    | |- context [match ?x with Some _ => _ | None => _ end] => destruct x
    | |- context [let '(_, _) := ?x in _] => destruct x
    end; intros H; try discriminate; injection H as <-; reflexivity.
  - intros daily_sales Hrows Hdays Hfail.
    assert (daily_sales <> []) as Hne
      by (intros E; rewrite E in Hdays; cbn in Hdays; lia).
    assert (forall x : Q,
              Z.of_nat (length (replicate (py_max 0 x) days_ahead))
                = Z.max 0 days_ahead /\
              Forall (fun v => (0 < x -> v = x) /\ (x <= 0 -> v = 0))
                     (replicate (py_max 0 x) days_ahead)) as Hrep.
    { intros x. split.
      - unfold replicate. rewrite repeat_length. lia.
      - apply replicate_forall, clamp_values. }
    assert (exists r avg,
      (let '(avg_daily, method, confidence) :=
         if (7 <=? len daily_sales)%Z
         then (mean (tail (Z.min 30 (len daily_sales)) daily_sales),
               weighted_average, 70%Z)
         else (mean daily_sales, moving_average, 68%Z) in
       Some {| forecast_demand := replicate (py_max 0 avg_daily) days_ahead;
               method := method; params := None;
               avg_daily_demand := Some avg_daily;
               max_daily_demand :=
                 Some (series_max (Single.grouped_sales product_data));
               forecast_std := None;
               confidence_score := Some confidence |}) = Some r /\
      avg_daily_demand r = Some avg /\
      Z.of_nat (length (forecast_demand r)) = Z.max 0 days_ahead /\
      Forall (fun v => (0 < avg -> v = avg) /\ (avg <= 0 -> v = 0))
             (forecast_demand r) /\
      ((7 <= len daily_sales)%Z ->
       (exists older recent,
          daily_sales = older ++ recent /\
          Z.of_nat (length recent)
            = Z.min 30 (Z.of_nat (length daily_sales)) /\
          avg * inject_Z (Z.of_nat (length recent))
            == fold_right Qplus 0 recent) /\
       method r = weighted_average /\ confidence_score r = Some 70%Z) /\
      ((len daily_sales < 7)%Z ->
       avg * inject_Z (Z.of_nat (length daily_sales))
         == fold_right Qplus 0 daily_sales /\
       method r = moving_average /\ confidence_score r = Some 68%Z))
      as Hfallback.
    { destruct (Z.leb_spec 7 (len daily_sales)) as [H7|H7];
        eexists; eexists; (split; [reflexivity |]); cbn;
        (split; [reflexivity |]);
        (split; [apply Hrep |]); (split; [apply Hrep |]); split.
      - intros _. split; [| split; reflexivity].
        destruct (tail_is_suffix (Z.min 30 (len daily_sales)) daily_sales)
          as (older & Hsplit & Hlen); [lia |].
        exists older, (tail (Z.min 30 (len daily_sales)) daily_sales).
        split; [exact Hsplit |]. split; [exact Hlen |].
        apply mean_times_length. intros E. rewrite E in Hlen.
        cbn in Hlen. lia.
      - intros Hlt. lia.
      - intros Hge. lia.
      - intros _. split; [| split; reflexivity].
        apply mean_times_length, Hne. }
    unfold Single.forecast_product_sales. cbv zeta.
    destruct (Z.ltb_spec (len product_data) 3); [lia |].
    rewrite (grouped_nonempty product_data)
      by (intros ->; cbn in Hrows; lia).
    cbn [negb]. fold daily_sales.
    destruct (Z.leb_spec 6 (len daily_sales)); [| lia].
    set (res := Single.fit_arima_model _ _ daily_sales 3 2 3) in *.
    destruct res as [[[model|] params] orig]; cbn [fst] in Hfail;
      [rewrite Hfail |]; exact Hfallback.
Qed.

End Oracles.

Lemma too_few_rows_no_forecast_witness :
  Single.forecast_product_sales no_pvalue tie_fit zero_std
    [(1%Z, 2); (2%Z, 5)] 30 = None.
Proof.
  apply (too_few_rows_no_forecast no_pvalue tie_fit zero_std).
  reflexivity.
Defined.

Lemma fallback_tiers_witness :
  exists r avg,
    Single.forecast_product_sales no_pvalue no_fit zero_std week_of_returns 30
      = Some r /\
    avg_daily_demand r = Some avg /\
    Forall (fun v => (0 < avg -> v = avg) /\ (avg <= 0 -> v = 0))
           (forecast_demand r) /\
    method r = weighted_average /\ confidence_score r = Some 70%Z.
Proof.
  destruct (proj2 (fallback_tiers no_pvalue no_fit zero_std week_of_returns 30))
    as (r & avg & Hr & Havg & _ & Hall & H7 & _).
  - vm_compute. discriminate.
  - vm_compute. discriminate.
  - exact I.
  - exists r, avg. split; [exact Hr |]. split; [exact Havg |].
    split; [exact Hall |]. apply H7. vm_compute. discriminate.
Defined.

End ForecastFacts.

(** * Further properties of the code *)

(** ** The restock planner, continued *)

Module PlannerMore.
Import Planner.

Lemma inj_le (a b : Z) : (a <= b)%Z -> inject_Z a <= inject_Z b.
Proof. rewrite <- Zle_Qle. auto. Qed.

Lemma inj_lt (a b : Z) : (a < b)%Z -> inject_Z a < inject_Z b.
Proof. rewrite <- Zlt_Qlt. auto. Qed.

Lemma inj_nonneg (z : Z) : (0 <= z)%Z -> 0 <= inject_Z z.
Proof. apply (inj_le 0). Qed.

Lemma inj_pos (z : Z) : (0 < z)%Z -> 0 < inject_Z z.
Proof. apply (inj_lt 0). Qed.

Lemma ceiling_pos (x : Q) : 0 < x -> (1 <= Qceiling x)%Z.
Proof.
  intros H. pose proof (Qle_ceiling x) as Hc.
  assert (0 < inject_Z (Qceiling x)) as Hp by lra.
  rewrite <- (Zlt_Qlt 0) in Hp. lia.
Qed.

Lemma py_int_le (x : Q) : 0 <= x -> inject_Z (py_int x) <= x.
Proof.
  intros H. unfold py_int. apply Qle_bool_iff in H. rewrite H.
  apply Qfloor_le.
Qed.

(** What a defined number of days until depletion says. *)
Lemma days_until_depletion_some (avg : Q) (cs d : Z) :
  days_until_depletion avg cs = Some d ->
  0 < avg /\
  (((cs <= 0)%Z /\ d = 0%Z) \/
   ((0 < cs)%Z /\ (1 <= d)%Z /\
    inject_Z (d - 1) * avg < inject_Z cs /\ inject_Z cs <= inject_Z d * avg)).
Proof.
  unfold days_until_depletion.
  destruct (Qltb 0 avg) eqn:E; [apply Qltb_true in E | discriminate].
  intros H. injection H as <-. split; [exact E |].
  destruct (Z.ltb_spec 0 cs) as [Hcs|Hcs]; [right | left; split; [lia | reflexivity]].
  assert (0 < inject_Z cs) as Hq by (rewrite <- (Zlt_Qlt 0); exact Hcs).
  set (x := inject_Z cs / avg).
  assert (x * avg == inject_Z cs) as Hx by (unfold x; field; lra).
  assert (0 < x) as Hxpos by (unfold x; apply Qlt_shift_div_l; lra).
  pose proof (Qle_ceiling x) as Hle. pose proof (Qceiling_lt x) as Hlt.
  split; [exact Hcs |]. split; [apply ceiling_pos, Hxpos |]. split.
  - rewrite <- Hx. apply Qmult_lt_compat_r; assumption.
  - rewrite <- Hx. apply Qmult_le_compat_r; [assumption | lra].
Qed.

Lemma buffer_nonneg (std avg : Q) : 0 <= avg -> 0 <= variability_buffer std avg.
Proof.
  intros H. unfold variability_buffer, py_min. qcases; lra.
Qed.

Lemma buffer_pos (std avg : Q) : 0 < avg -> 0 < variability_buffer std avg.
Proof.
  intros H. unfold variability_buffer, py_min. qcases; lra.
Qed.

Lemma buffer_le_cap (std avg : Q) :
  0 <= avg -> variability_buffer std avg <= avg * (3 # 10).
Proof.
  intros H. unfold variability_buffer, py_min. qcases; lra.
Qed.

(** X1: every recommendation the planner returns has a suggested quantity
    that is not negative and is either 0 or at least the reorder level. *)
Theorem suggested_is_zero_or_floored
    (fr : ForecastResult) (cs rl lead safety : Z) (r : Restock) :
  calculate_restock_suggestion (Some fr) cs rl lead safety = Some r ->
  (0 <= suggested_quantity r)%Z /\
  (suggested_quantity r = 0%Z \/ (rl <= suggested_quantity r)%Z).
Proof.
  intros Hr. cbn in Hr. injection Hr as <-. cbn [suggested_quantity].
  set (avg := get_or 0 (avg_daily_demand fr)).
  set (std := get_or 0 (forecast_std fr)).
  set (maxd := get_or avg (max_daily_demand fr)).
  unfold suggest.
  destruct (Qle_bool (required_stock avg std lead safety) (inject_Z cs)).
  - destruct (days_until_depletion avg cs) as [d|] eqn:Hd; cbn [truthy_and];
      [| split; [lia | left; reflexivity]].
    destruct (Z.eqb_spec d 0) as [->|Hnz]; cbn [negb andb];
      [split; [lia | left; reflexivity] |].
    destruct (Z.leb_spec d (lead + 3)) as [Hle|_];
      [| split; [lia | left; reflexivity]].
    apply days_until_depletion_some in Hd as (Havg & [[_ ->]|(_ & Hd1 & _)]);
      [contradiction |].
    assert (1 <= Qceiling (avg * inject_Z (lead + 3)))%Z.
    { apply ceiling_pos. apply Qmult_lt_0_compat; [exact Havg |].
      rewrite <- (Zlt_Qlt 0). lia. }
    split; [lia | right; lia].
  - pose proof (PlannerFacts.floored_quantity_ge
                  (required_stock avg std lead safety)
                  (max_reasonable maxd rl lead safety) cs rl) as Hfl.
    split; [| right; exact Hfl].
    unfold floored_quantity in *.
    match goal with |- context [(?x <? rl)%Z] =>
      destruct (Z.ltb_spec x rl) as [Hlt|Hge];
      assert (0 <= x)%Z by (destruct (Qltb _ _); lia) end; lia.
Qed.

Lemma suggested_is_zero_or_floored_witness :
  (0 <= 26)%Z /\ (26%Z = 0%Z \/ (10 <= 26)%Z).
Proof.
  apply (suggested_is_zero_or_floored stocked_out 0 10 7 14
           (mkRestock 26 (Some 0%Z) 1 1 21 14 26 81 0 low medium)).
  reflexivity.
Defined.

(** X2: for a non-negative demand and window, the required stock lies
    between the base requirement and 1.3 times it. *)
Theorem required_stock_bounds (avg std : Q) (lead safety : Z) :
  0 <= avg -> (0 <= lead + safety)%Z ->
  avg * inject_Z (lead + safety) <= required_stock avg std lead safety /\
  required_stock avg std lead safety
    <= avg * inject_Z (lead + safety) * (13 # 10).
Proof.
  intros Havg HT. unfold required_stock.
  assert (0 <= inject_Z (lead + safety)) as HTq
    by (rewrite <- (Zle_Qle 0); exact HT).
  pose proof (buffer_nonneg std avg Havg) as Hb0.
  pose proof (buffer_le_cap std avg Havg) as Hb1.
  set (T := inject_Z (lead + safety)) in *.
  set (b := variability_buffer std avg) in *.
  assert (0 <= b * T) by (apply Qmult_le_0_compat; assumption).
  assert (b * T <= avg * (3 # 10) * T)
    by (apply Qmult_le_compat_r; assumption).
  split; lra.
Qed.

Lemma required_stock_bounds_witness :
  10 * inject_Z (7 + 14) <= required_stock 10 1 7 14 /\
  required_stock 10 1 7 14 <= 10 * inject_Z (7 + 14) * (13 # 10).
Proof.
  apply (required_stock_bounds 10 1 7 14).
  - discriminate.
  - discriminate.
Defined.

Lemma inject_max0_le (z : Z) (b : Q) :
  0 <= b -> inject_Z z <= b -> inject_Z (Z.max 0 z) <= b.
Proof.
  intros Hb Hz. destruct (Z.max_spec 0 z) as [[_ ->]|[_ ->]]; assumption.
Qed.

Lemma floored_quantity_under_ceiling (required mrs : Q) (cs rl : Z) :
  inject_Z rl <= mrs - inject_Z cs -> (0 <= rl)%Z ->
  inject_Z (floored_quantity required mrs cs rl) <= mrs - inject_Z cs.
Proof.
  intros Hfit Hrl. unfold floored_quantity.
  assert (0 <= mrs - inject_Z cs) as Hroom.
  { apply inj_nonneg in Hrl. lra. }
  set (s0 := Z.max 0 (Qceiling (required - inject_Z cs))).
  destruct (Qltb (mrs - inject_Z cs) (inject_Z s0)) eqn:E;
    [apply Qltb_true in E | apply Qltb_false in E].
  - destruct (Z.ltb_spec (Z.max 0 (py_int (mrs - inject_Z cs))) rl);
      [exact Hfit |].
    apply inject_max0_le; [exact Hroom | apply py_int_le, Hroom].
  - destruct (Z.ltb_spec s0 rl); assumption.
Qed.

(** X3: when the stock is short of the requirement and a non-negative
    reorder level fits under the overstock ceiling, the target stock stays
    under the ceiling and the overstocking risk is low. *)
Theorem overstock_low_when_floor_fits
    (fr : ForecastResult) (cs rl lead safety : Z) (r : Restock) :
  let avg := get_or 0 (avg_daily_demand fr) in
  let std := get_or 0 (forecast_std fr) in
  let maxd := get_or avg (max_daily_demand fr) in
  calculate_restock_suggestion (Some fr) cs rl lead safety = Some r ->
  (0 <= rl)%Z ->
  inject_Z rl <= max_reasonable maxd rl lead safety - inject_Z cs ->
  inject_Z cs < required_stock avg std lead safety ->
  inject_Z (optimal_stock r) <= max_reasonable maxd rl lead safety /\
  overstocking_risk r = low.
Proof.
  intros avg std maxd Hr Hrl Hfit Hshort.
  cbn in Hr. injection Hr as <-. cbn. fold avg std maxd.
  assert (inject_Z (cs + suggest avg std maxd cs rl lead safety)
          <= max_reasonable maxd rl lead safety) as H.
  { unfold suggest. apply Qle_bool_false in Hshort. rewrite Hshort.
    rewrite inject_Z_plus.
    pose proof (floored_quantity_under_ceiling
                  (required_stock avg std lead safety)
                  (max_reasonable maxd rl lead safety) cs rl Hfit Hrl).
    lra. }
  split; [exact H | apply PlannerFacts.overstock_label_low, H].
Qed.

Lemma overstock_low_when_floor_fits_witness :
  inject_Z (optimal_stock
              (mkRestock 26 (Some 0%Z) 1 1 21 14 26 81 0 low medium))
    <= max_reasonable 1 10 7 14 /\
  overstocking_risk (mkRestock 26 (Some 0%Z) 1 1 21 14 26 81 0 low medium)
    = low.
Proof.
  apply (overstock_low_when_floor_fits stocked_out 0 10 7 14).
  - reflexivity.
  - discriminate.
  - vm_compute. discriminate.
  - reflexivity.
Defined.

(** X4: a defined number of days until stockout [d] comes with a positive
    demand; it is 0 exactly when the stock is not positive, and otherwise
    the stock lasts more than [d - 1] and at most [d] days of the average
    demand. *)
Theorem days_until_stockout_brackets_stock
    (fr : ForecastResult) (cs rl lead safety d : Z) (r : Restock) :
  let avg := get_or 0 (avg_daily_demand fr) in
  calculate_restock_suggestion (Some fr) cs rl lead safety = Some r ->
  days_until_stockout r = Some d ->
  0 < avg /\
  (((cs <= 0)%Z /\ d = 0%Z) \/
   ((0 < cs)%Z /\ (1 <= d)%Z /\
    inject_Z (d - 1) * avg < inject_Z cs /\ inject_Z cs <= inject_Z d * avg)).
Proof.
  intros avg Hr Hd. cbn in Hr. injection Hr as <-. cbn in Hd.
  apply days_until_depletion_some, Hd.
Qed.

Lemma days_until_stockout_brackets_stock_witness :
  0 < 10 /\
  (((100 <= 0)%Z /\ 10%Z = 0%Z) \/
   ((0 < 100)%Z /\ (1 <= 10)%Z /\
    inject_Z (10 - 1) * 10 < inject_Z 100 /\
    inject_Z 100 <= inject_Z 10 * 10)).
Proof.
  apply (days_until_stockout_brackets_stock demand_above_history
           100%Z 10%Z 7%Z 14%Z 10%Z
           (mkRestock 10 (Some 10%Z) 10 1 210 140 110 81 100 medium medium)).
  - reflexivity.
  - reflexivity.
Defined.

(** X5: for a non-negative demand and lead time the reorder point is at
    least the safety stock, and the safety stock is not negative when the
    safety window is not. *)
Theorem reorder_point_covers_safety_stock
    (fr : ForecastResult) (cs rl lead safety : Z) (r : Restock) :
  calculate_restock_suggestion (Some fr) cs rl lead safety = Some r ->
  0 <= get_or 0 (avg_daily_demand fr) -> (0 <= lead)%Z ->
  (safety_stock r <= reorder_point r)%Z /\
  ((0 <= safety)%Z -> (0 <= safety_stock r)%Z).
Proof.
  intros Hr Havg Hlead. cbn in Hr. injection Hr as <-. cbn.
  set (avg := get_or 0 (avg_daily_demand fr)) in *.
  split.
  - apply Qceiling_resp_le. rewrite inject_Z_plus.
    apply inj_nonneg in Hlead.
    assert (0 <= avg * inject_Z lead) by (apply Qmult_le_0_compat; assumption).
    lra.
  - intros Hs. apply inj_nonneg in Hs.
    assert (0 <= avg * inject_Z safety) as H0
      by (apply Qmult_le_0_compat; assumption).
    apply Qceiling_resp_le in H0. exact H0.
Qed.

Lemma reorder_point_covers_safety_stock_witness :
  (140 <= 210)%Z /\ ((0 <= 14)%Z -> (0 <= 140)%Z).
Proof.
  apply (reorder_point_covers_safety_stock demand_above_history
           100%Z 10%Z 7%Z 14%Z
           (mkRestock 10 (Some 10%Z) 10 1 210 140 110 81 100 medium medium)).
  - reflexivity.
  - discriminate.
  - discriminate.
Defined.

(** X6: with a non-negative lead time and a safety window of at least
    [lead_time_days + 6] days (the defaults 7 and 14 qualify), a stock that
    covers the requirement always yields an order of 0: such a stock lasts
    at least [lead_time_days + safety_days] days, twice the
    [lead_time_days + 3] days below which the depletion override tops
    up. *)
Theorem covered_stock_orders_nothing
    (fr : ForecastResult) (cs rl lead safety : Z) (r : Restock) :
  let avg := get_or 0 (avg_daily_demand fr) in
  let std := get_or 0 (forecast_std fr) in
  calculate_restock_suggestion (Some fr) cs rl lead safety = Some r ->
  (0 <= lead)%Z -> (lead + 6 <= safety)%Z ->
  required_stock avg std lead safety <= inject_Z cs ->
  suggested_quantity r = 0%Z /\ optimal_stock r = cs.
Proof.
  intros avg std Hr Hlead Hsafe Hreq.
  cbn in Hr. injection Hr as <-. cbn. fold avg std.
  assert (suggest avg std (get_or avg (max_daily_demand fr)) cs rl lead safety
          = 0%Z) as ->; [| split; [reflexivity | lia]].
  unfold suggest. pose proof Hreq as Hb. apply Qle_bool_iff in Hb. rewrite Hb.
  destruct (days_until_depletion avg cs) as [d|] eqn:Hd; cbn [truthy_and];
    [| reflexivity].
  destruct (Z.eqb_spec d 0) as [->|Hnz]; cbn [negb andb]; [reflexivity |].
  destruct (Z.leb_spec d (lead + 3)) as [Hle|_]; [exfalso | reflexivity].
  apply days_until_depletion_some in Hd
    as (Havg & [[_ ->]|(_ & _ & _ & Hup)]); [contradiction |].
  unfold required_stock in Hreq.
  assert (0 <= inject_Z (lead + safety)) as HT
    by (apply inj_nonneg; lia).
  assert (0 <= avg) as Havg0 by lra.
  pose proof (buffer_nonneg std avg Havg0) as Hbuf.
  assert (0 <= variability_buffer std avg * inject_Z (lead + safety)) as Hpos
    by (apply Qmult_le_0_compat; assumption).
  assert (inject_Z (lead + safety) * avg <= inject_Z d * avg) as Hlt by lra.
  apply Qmult_le_r in Hlt; [| exact Havg].
  rewrite <- Zle_Qle in Hlt. lia.
Qed.

Lemma covered_stock_orders_nothing_witness :
  suggested_quantity
    (mkRestock 0 (Some 30%Z) 1 1 21 14 30 81 30 low low) = 0%Z /\
  optimal_stock (mkRestock 0 (Some 30%Z) 1 1 21 14 30 81 30 low low) = 30%Z.
Proof.
  apply (covered_stock_orders_nothing stocked_out 30 10 7 14).
  - reflexivity.
  - discriminate.
  - discriminate.
  - vm_compute. discriminate.
Defined.

(** X7: when the stock is short of the requirement and the overstock
    ceiling leaves room for the missing quantity, the target stock after
    the order covers the requirement. *)
Theorem order_covers_requirement
    (fr : ForecastResult) (cs rl lead safety : Z) (r : Restock) :
  let avg := get_or 0 (avg_daily_demand fr) in
  let std := get_or 0 (forecast_std fr) in
  let maxd := get_or avg (max_daily_demand fr) in
  calculate_restock_suggestion (Some fr) cs rl lead safety = Some r ->
  inject_Z cs < required_stock avg std lead safety ->
  inject_Z (Qceiling (required_stock avg std lead safety - inject_Z cs))
    <= max_reasonable maxd rl lead safety - inject_Z cs ->
  required_stock avg std lead safety <= inject_Z (optimal_stock r).
Proof.
  intros avg std maxd Hr Hshort Hroom.
  cbn in Hr. injection Hr as <-. cbn. fold avg std maxd.
  unfold suggest. pose proof Hshort as Hb. apply Qle_bool_false in Hb.
  rewrite Hb. rewrite inject_Z_plus. unfold floored_quantity.
  set (req := required_stock avg std lead safety) in *.
  set (mrs := max_reasonable maxd rl lead safety) in *.
  pose proof (Qle_ceiling (req - inject_Z cs)) as Hc.
  assert (1 <= Qceiling (req - inject_Z cs))%Z as H1
    by (apply ceiling_pos; lra).
  rewrite (Z.max_r 0 (Qceiling (req - inject_Z cs))) by lia.
  apply Qltb_false in Hroom. rewrite Hroom.
  destruct (Z.ltb_spec (Qceiling (req - inject_Z cs)) rl) as [Hlt|_]; [| lra].
  apply inj_lt in Hlt. lra.
Qed.

Lemma order_covers_requirement_witness :
  required_stock 1 0 7 14 <=
  inject_Z (optimal_stock
              (mkRestock 26 (Some 0%Z) 1 1 21 14 26 81 0 low medium)).
Proof.
  apply (order_covers_requirement stocked_out 0 10 7 14).
  - reflexivity.
  - reflexivity.
  - vm_compute. discriminate.
Defined.

(** X8: without a positive forecast demand the days until stockout are
    undefined and the understocking risk is 'medium', whatever the stock. *)
Theorem no_demand_is_medium_risk
    (fr : ForecastResult) (cs rl lead safety : Z) (r : Restock) :
  calculate_restock_suggestion (Some fr) cs rl lead safety = Some r ->
  get_or 0 (avg_daily_demand fr) <= 0 ->
  days_until_stockout r = None /\ understocking_risk r = medium.
Proof.
  intros Hr Havg. cbn in Hr. injection Hr as <-. cbn.
  unfold days_until_depletion.
  apply Qltb_false in Havg. rewrite Havg. split; reflexivity.
Qed.

Lemma no_demand_is_medium_risk_witness :
  days_until_stockout (mkRestock 0 None 0 0 0 0 500 50 500 medium medium)
    = None /\
  understocking_risk (mkRestock 0 None 0 0 0 0 500 50 500 medium medium)
    = medium.
Proof.
  apply (no_demand_is_medium_risk zero_forecast 500 10 7 14).
  - reflexivity.
  - discriminate.
Defined.

(** X9: when the top-up of the depletion override fires (the stock covers
    the requirement but lasts at most [lead_time_days + 3] days), the order
    is at least the reorder level and at least the average demand of
    [lead_time_days + 3] days. *)
Theorem top_up_covers_lead_time
    (fr : ForecastResult) (cs rl lead safety d : Z) (r : Restock) :
  let avg := get_or 0 (avg_daily_demand fr) in
  let std := get_or 0 (forecast_std fr) in
  calculate_restock_suggestion (Some fr) cs rl lead safety = Some r ->
  required_stock avg std lead safety <= inject_Z cs ->
  days_until_stockout r = Some d -> d <> 0%Z -> (d <= lead + 3)%Z ->
  (rl <= suggested_quantity r)%Z /\
  avg * inject_Z (lead + 3) <= inject_Z (suggested_quantity r).
Proof.
  intros avg std Hr Hreq Hd Hnz Hle.
  cbn in Hr. injection Hr as <-. cbn in Hd |- *. fold avg std.
  fold avg in Hd. unfold suggest. fold avg std.
  apply Qle_bool_iff in Hreq. rewrite Hreq, Hd. cbn [truthy_and].
  destruct (Z.eqb_spec d 0); [contradiction |].
  destruct (Z.leb_spec d (lead + 3)); [| lia]. cbn [negb andb].
  split; [lia |].
  pose proof (Qle_ceiling (avg * inject_Z (lead + 3))) as Hc.
  assert (Qceiling (avg * inject_Z (lead + 3))
          <= Z.max rl (Qceiling (avg * inject_Z (lead + 3))))%Z as Hm by lia.
  apply inj_le in Hm. lra.
Qed.

Lemma top_up_covers_lead_time_witness :
  (10 <= 10)%Z /\ 1 * inject_Z (7 + 3) <= inject_Z 10.
Proof.
  apply (top_up_covers_lead_time stocked_out 10%Z 10%Z 7%Z 1%Z 10%Z
           (mkRestock 10 (Some 10%Z) 1 1 8 1 20 68 10 low low)).
  - reflexivity.
  - vm_compute. discriminate.
  - reflexivity.
  - discriminate.
  - discriminate.
Defined.

End PlannerMore.

(** ** Differencing and selection, continued *)

Module SelectionMore.
Import SelectionFacts.

Lemma make_stationary_long (ts : list Q) :
  (2 <= len ts)%Z -> make_stationary ts = diff ts.
Proof.
  unfold make_stationary, len. intros H.
  destruct ts as [|a [|b tl]]; cbn in *; try lia. reflexivity.
Qed.

(** X10: [make_stationary] leaves a series of at most one observation
    unchanged (nothing to difference) and shortens any longer series by
    exactly one observation; the differences add up to the last value
    minus the first. *)
Theorem make_stationary_shape (ts : list Q) :
  ((len ts <= 1)%Z -> make_stationary ts = ts) /\
  ((2 <= len ts)%Z -> len (make_stationary ts) = (len ts - 1)%Z) /\
  Qsum (make_stationary ts) ==
    (if (2 <=? len ts)%Z then last ts 0 - hd 0 ts else Qsum ts).
Proof.
  split; [| split].
  - unfold make_stationary, len. destruct ts as [|a [|b tl]]; cbn; try lia;
      reflexivity.
  - intros H. rewrite (make_stationary_long ts H).
    unfold len in *. rewrite diff_length. lia.
  - destruct (Z.leb_spec 2 (len ts)) as [H|H].
    + rewrite (make_stationary_long ts H).
      destruct ts as [|a tl]; [cbn in H; lia |]. clear H. cbn [hd].
      revert a. induction tl as [|b tl IH]; intros a.
      * cbn. lra.
      * change (diff (a :: b :: tl)) with ((b - a) :: diff (b :: tl)).
        change (last (a :: b :: tl) 0) with (last (b :: tl) 0).
        cbn [Qsum fold_right]. fold (Qsum (diff (b :: tl))).
        rewrite (IH b). lra.
    + unfold make_stationary, len in *.
      destruct ts as [|a [|b tl]]; cbn in *; try lia; reflexivity.
Qed.

Lemma make_stationary_shape_witness :
  len (make_stationary six_days) = (len six_days - 1)%Z.
Proof.
  apply (proj1 (proj2 (make_stationary_shape six_days))). discriminate.
Defined.

(** The differencing decision, case by case. *)
Lemma differencing_cases
    (adfuller_pvalue : list Q -> option Q) (ts : list Q) :
  let ts' := fst (Single.differencing adfuller_pvalue ts) in
  let d := snd (Single.differencing adfuller_pvalue ts) in
  ((d = 0%Z /\ ts' = ts) \/
   (d = 1%Z /\ ts' = diff ts /\ (4 <= len ts)%Z /\
    test_stationarity adfuller_pvalue ts = false)) /\
  len ts' = (len ts - d)%Z /\
  (adfuller_pvalue ts = None -> (4 <= len ts)%Z -> d = 1%Z).
Proof.
  unfold Single.differencing, test_stationarity.
  destruct (Z.leb_spec 3 (len (make_stationary ts))) as [H3|H3].
  - assert (2 <= len ts)%Z as H2.
    { unfold make_stationary, len in *.
      destruct ts as [|a [|b tl]]; cbn in *; lia. }
    rewrite (make_stationary_long ts H2) in *.
    assert (len (diff ts) = (len ts - 1)%Z) as Hl
      by (unfold len; rewrite diff_length; unfold len in H2; lia).
    destruct (adfuller_pvalue ts) as [p|]; cbn;
      [destruct (Qle_bool p (5 # 100)); cbn |];
      repeat split; auto; try lia; try discriminate;
      right; repeat split; auto; lia.
  - assert (len ts < 4)%Z as H4.
    { destruct (Z.leb_spec 2 (len ts)) as [H2|H2]; [| lia].
      rewrite (make_stationary_long ts H2) in H3.
      unfold len in *. rewrite diff_length in H3. lia. }
    destruct (adfuller_pvalue ts) as [p|]; cbn;
      [destruct (Qle_bool p (5 # 100)); cbn |];
      repeat split; auto; try lia; try discriminate.
Qed.

(** X11: the single-product selector differences at most once: the
    differencing order is 0 with the series untouched, or 1 with the
    first differences of a series of at least 4 observations that failed
    the stationarity test (also when the test raised); in both cases the
    series handed to the fits has [len ts - d] observations. *)
Theorem differencing_at_most_once
    (adfuller_pvalue : list Q -> option Q) (ts : list Q) :
  let ts' := fst (Single.differencing adfuller_pvalue ts) in
  let d := snd (Single.differencing adfuller_pvalue ts) in
  ((d = 0%Z /\ ts' = ts) \/
   (d = 1%Z /\ ts' = diff ts /\ (4 <= len ts)%Z /\
    test_stationarity adfuller_pvalue ts = false)) /\
  len ts' = (len ts - d)%Z /\
  (adfuller_pvalue ts = None -> (4 <= len ts)%Z -> d = 1%Z).
Proof. exact (differencing_cases adfuller_pvalue ts). Qed.

Lemma differencing_at_most_once_witness :
  snd (Single.differencing no_pvalue six_days) = 1%Z.
Proof.
  apply (proj2 (proj2 (differencing_at_most_once no_pvalue six_days))).
  - reflexivity.
  - discriminate.
Defined.

Lemma in_reduced_set (d p d' q : Z) :
  In (p, d', q) (reduced_set d) ->
  d' = d /\ (0 <= p <= 2)%Z /\ (0 <= q <= 2)%Z.
Proof.
  unfold reduced_set. cbn.
  intros H. repeat (destruct H as [H|H]; [injection H as <- <- <-; lia |]).
  destruct H.
Qed.

Lemma in_single_candidates (ts : list Q) (d max_p max_q p d' q : Z) :
  In (p, d', q) (Single.param_combinations ts d max_p max_q) ->
  d' = d /\ (0 <= p <= 2)%Z /\ (0 <= q <= 2)%Z /\
  ((12 <= len ts)%Z -> (p <= max_p)%Z /\ (q <= max_q)%Z).
Proof.
  unfold Single.param_combinations.
  destruct (Z.ltb_spec (len ts) 12) as [Hlen|Hlen].
  - intros Hin. apply in_reduced_set in Hin. lia.
  - rewrite in_grid, !in_range. lia.
Qed.

(** X12: the single-product selector returns a model and its order
    together or not at all; a returned order (p,d,q) has p and q in [0,2]
    and d in {0,1}, the d of the differencing decision, and the returned
    model is the fit of that order on the differenced series.  The
    original series is handed back exactly when the series has at least 6
    observations. *)
Theorem selected_order_is_low
    (adfuller_pvalue : list Q -> option Q)
    (arima_fit : list Q -> Order -> option FittedModel)
    (ts : list Q) (max_p max_d max_q : Z) :
  let res := Single.fit_arima_model adfuller_pvalue arima_fit ts
                                    max_p max_d max_q in
  (fst (fst res) = None <-> snd (fst res) = None) /\
  (snd res = if (len ts <? 6)%Z then None else Some ts) /\
  ((len ts < 6)%Z -> fst (fst res) = None) /\
  (forall p d q, snd (fst res) = Some (p, d, q) ->
     (0 <= p <= 2)%Z /\ (0 <= q <= 2)%Z /\
     d = snd (Single.differencing adfuller_pvalue ts) /\
     (d = 0%Z \/ d = 1%Z) /\
     fst (fst res) =
       arima_fit (fst (Single.differencing adfuller_pvalue ts)) (p, d, q)).
Proof.
  cbv zeta. unfold Single.fit_arima_model.
  destruct (Z.ltb_spec (len ts) 6) as [Hlt|Hge]; cbn [fst snd].
  - repeat split; auto; intros; discriminate.
  - pose proof (differencing_cases adfuller_pvalue ts)
      as (Hd & _ & _). cbv zeta in Hd.
    destruct (Single.differencing adfuller_pvalue ts) as [ts' d].
    cbn [fst snd] in *.
    pose proof (search_first_minimum arima_fit ts'
                  (Single.param_combinations ts' d max_p max_q)) as Hs.
    destruct (search arima_fit ts' _) as [[[a m] c]|]; cbn [fst snd].
    + split; [split; discriminate |]. split; [reflexivity |].
      split; [lia |].
      intros p d0 q Heq. injection Heq as ->.
      destruct Hs as (l1 & l2 & Hcs & Hfit & _).
      assert (In (p, d0, q) (Single.param_combinations ts' d max_p max_q))
        as Hin by (rewrite Hcs; apply in_elt).
      apply in_single_candidates in Hin as (-> & Hp & Hq & _).
      split; [lia |]. split; [lia |]. split; [reflexivity |].
      split; [destruct Hd as [[-> _]|[-> _]]; auto |].
      symmetry. exact Hfit.
    + repeat split; auto; try lia; intros; discriminate.
Qed.

Lemma grid_length (d : Z) (ps qs : list Z) :
  length (grid d ps qs) = (length ps * length qs)%nat.
Proof.
  unfold grid. induction ps as [|p ps IH]; [reflexivity |].
  cbn [flat_map]. rewrite length_app, length_map.
  cbn [length Nat.mul]. f_equal. exact IH.
Qed.

Lemma range_length (n : Z) : length (range n) = Z.to_nat n.
Proof. unfold range. rewrite length_map, length_seq. reflexivity. Qed.

(** X13: the fitting cost is bounded: the single-product selector tries at
    most 9 orders on any series and for any [max_p], [max_q]; the batch
    selector tries [(max_p + 1) * (max_q + 1)] orders, 16 with its
    defaults. *)
Theorem candidate_count (ts : list Q) (d max_p max_q : Z) :
  (len (Single.param_combinations ts d max_p max_q) <= 9)%Z /\
  ((0 <= max_p)%Z -> (0 <= max_q)%Z ->
   len (Batch.param_combinations d max_p max_q)
   = ((max_p + 1) * (max_q + 1))%Z) /\
  len (Batch.param_combinations d 3 3) = 16%Z.
Proof.
  split; [| split].
  - unfold Single.param_combinations, len.
    destruct (Z.ltb_spec (Z.of_nat (length ts)) 12); [cbn; lia |].
    rewrite grid_length, !range_length. nia.
  - intros Hp Hq. unfold Batch.param_combinations, len.
    rewrite grid_length, !range_length. nia.
  - reflexivity.
Qed.

Lemma candidate_count_witness :
  len (Batch.param_combinations 1 2 5) = ((2 + 1) * (5 + 1))%Z.
Proof.
  apply (proj1 (proj2 (candidate_count [] 1 2 5))); discriminate.
Defined.

End SelectionMore.

(** ** The single-product forecaster, continued *)

Module ForecastMore.
Import ForecastFacts.

(** *** Grouping by date and filling the gaps *)

Lemma Qsum_cons (x : Q) (l : list Q) : Qsum (x :: l) = x + Qsum l.
Proof. reflexivity. Qed.

Lemma Qsum_ext {A : Type} (f g : A -> Q) (l : list A) :
  (forall x, In x l -> f x == g x) -> Qsum (map f l) == Qsum (map g l).
Proof.
  induction l as [|a l IH]; intros H; [reflexivity |].
  cbn [map]. rewrite !Qsum_cons, (H a (or_introl eq_refl)), IH;
    [reflexivity |].
  intros x Hx. apply H. right. exact Hx.
Qed.

Lemma Qsum_map_plus {A : Type} (f g : A -> Q) (l : list A) :
  Qsum (map (fun x => f x + g x) l) == Qsum (map f l) + Qsum (map g l).
Proof.
  induction l as [|a l IH]; [reflexivity |].
  cbn [map]. rewrite !Qsum_cons, IH. ring.
Qed.

Lemma Qsum_zero {A : Type} (f : A -> Q) (l : list A) :
  (forall x, In x l -> f x == 0) -> Qsum (map f l) == 0.
Proof.
  induction l as [|a l IH]; intros H; [reflexivity |].
  cbn [map]. rewrite !Qsum_cons, (H a (or_introl eq_refl)), IH;
    [reflexivity |].
  intros x Hx. apply H. right. exact Hx.
Qed.

(** A quantity counted on its own day only. *)
Lemma Qsum_one_day (d : Z) (q : Q) (days : list Z) :
  NoDup days -> In d days ->
  Qsum (map (fun t => if (d =? t)%Z then q else 0) days) == q.
Proof.
  induction 1 as [|t days Hnotin Hnd IH]; intros Hin; [destruct Hin |].
  cbn [map]. rewrite Qsum_cons.
  destruct Hin as [->|Hin].
  - rewrite Z.eqb_refl. rewrite Qsum_zero; [ring |].
    intros x Hx. destruct (Z.eqb_spec d x) as [->|_];
      [contradiction | reflexivity].
  - destruct (Z.eqb_spec d t) as [->|_]; [contradiction |].
    rewrite (IH Hin). ring.
Qed.

Lemma sold_on_cons (r : Single.Row) (rows : list Single.Row) (t : Z) :
  Single.sold_on (r :: rows) t ==
  (if (fst r =? t)%Z then snd r else 0) + Single.sold_on rows t.
Proof.
  unfold Single.sold_on. cbn [filter].
  destruct (fst r =? t)%Z; [cbn [map]; rewrite Qsum_cons; reflexivity | ring].
Qed.

Lemma sold_on_total (rows : list Single.Row) (days : list Z) :
  NoDup days -> (forall r, In r rows -> In (fst r) days) ->
  Qsum (map (Single.sold_on rows) days) == Qsum (map snd rows).
Proof.
  intros Hnd. induction rows as [|r rows IH]; intros Hin.
  - apply Qsum_zero. reflexivity.
  - rewrite (Qsum_ext _ _ days (fun t _ => sold_on_cons r rows t)).
    rewrite Qsum_map_plus, Qsum_one_day, IH; auto.
    + cbn [map]. rewrite Qsum_cons. reflexivity.
    + intros x Hx. apply Hin. right. exact Hx.
    + apply Hin. left. reflexivity.
Qed.

Lemma date_range_nodup (lo hi : Z) : NoDup (Single.date_range lo hi).
Proof.
  unfold Single.date_range. generalize (Z.to_nat (hi - lo + 1)) as k.
  generalize 0%nat as a. intros a k. revert a.
  induction k as [|k IH]; intros a; cbn [seq map]; constructor.
  - rewrite in_map_iff. intros (j & Hj & Hin). apply in_seq in Hin. lia.
  - apply IH.
Qed.

Lemma fold_min_lower (ds : list Z) (d0 x : Z) :
  In x (d0 :: ds) -> (fold_left Z.min ds d0 <= x)%Z.
Proof.
  revert d0. induction ds as [|d ds IH]; intros d0 Hin; cbn.
  - destruct Hin as [->|[]]. lia.
  - destruct Hin as [->|[->|Hin]].
    + pose proof (fold_min_le ds (Z.min x d)). lia.
    + pose proof (fold_min_le ds (Z.min d0 x)). lia.
    + apply IH. right. exact Hin.
Qed.

Lemma fold_max_upper (ds : list Z) (d0 x : Z) :
  In x (d0 :: ds) -> (x <= fold_left Z.max ds d0)%Z.
Proof.
  revert d0. induction ds as [|d ds IH]; intros d0 Hin; cbn.
  - destruct Hin as [->|[]]. lia.
  - destruct Hin as [->|[->|Hin]].
    + pose proof (fold_max_ge ds (Z.max x d)). lia.
    + pose proof (fold_max_ge ds (Z.max d0 x)). lia.
    + apply IH. right. exact Hin.
Qed.

Lemma dates_within_span (product_data : list Single.Row) (r : Single.Row) :
  In r product_data ->
  (Single.first_day product_data <= fst r <= Single.last_day product_data)%Z.
Proof.
  intros Hin. unfold Single.first_day, Single.last_day.
  apply (in_map fst) in Hin.
  destruct (map fst product_data) as [|d0 ds]; [destruct Hin |].
  split; [apply fold_min_lower | apply fold_max_upper]; exact Hin.
Qed.

Lemma no_row_sold_nothing (product_data : list Single.Row) (t : Z) :
  Single.has_row product_data t = false -> Single.sold_on product_data t = 0.
Proof.
  unfold Single.sold_on, Single.has_row.
  induction product_data as [|r rs IH]; [reflexivity |].
  cbn [existsb filter]. intros E. apply orb_false_iff in E as [E1 E2].
  rewrite E1. apply IH, E2.
Qed.

(** Span and totals of the grouped and the gap-filled series. *)
Lemma gap_filling_facts (product_data : list Single.Row) :
  product_data <> [] ->
  len (Single.gap_filled product_data)
    = (Single.last_day product_data - Single.first_day product_data + 1)%Z /\
  (1 <= len (Single.gap_filled product_data))%Z /\
  Qsum (Single.gap_filled product_data) == Qsum (map snd product_data) /\
  Qsum (Single.grouped_sales product_data) == Qsum (map snd product_data).
Proof.
  intros Hne.
  assert (Single.first_day product_data <= Single.last_day product_data)%Z
    as Hspan.
  { destruct product_data as [|r rs]; [contradiction |].
    pose proof (dates_within_span (r :: rs) r (or_introl eq_refl)). lia. }
  assert (Qsum (Single.gap_filled product_data) == Qsum (map snd product_data))
    as Htotal.
  { unfold Single.gap_filled. apply sold_on_total.
    - apply date_range_nodup.
    - intros r Hr. apply in_date_range, dates_within_span, Hr. }
  split; [| split; [| split]].
  - unfold Single.gap_filled, Single.date_range, len.
    rewrite !length_map, length_seq. lia.
  - unfold Single.gap_filled, Single.date_range, len.
    rewrite !length_map, length_seq. lia.
  - exact Htotal.
  - rewrite <- Htotal. unfold Single.grouped_sales, Single.gap_filled.
    induction (Single.date_range _ _) as [|t days IH]; [reflexivity |].
    cbn [filter map]. destruct (Single.has_row product_data t) eqn:E.
    + cbn [map]. rewrite !Qsum_cons, IH. reflexivity.
    + rewrite Qsum_cons, IH.
      rewrite (no_row_sold_nothing product_data t E). ring.
Qed.

(** X14: the gap-filled series of a product with at least one row spans
    every day from its first to its last date, all the product's dates lie
    in that span, and grouping by date and filling the gaps with 0 keep the
    total: both series add up to the sum of the quantities of the rows. *)
Theorem gap_filling_keeps_total (product_data : list Single.Row) :
  product_data <> [] ->
  len (Single.gap_filled product_data)
    = (Single.last_day product_data - Single.first_day product_data + 1)%Z /\
  (1 <= len (Single.gap_filled product_data))%Z /\
  Qsum (Single.gap_filled product_data) == Qsum (map snd product_data) /\
  Qsum (Single.grouped_sales product_data) == Qsum (map snd product_data).
Proof. exact (gap_filling_facts product_data). Qed.

Lemma gap_filling_keeps_total_witness :
  len (Single.gap_filled week_of_sales)
    = (Single.last_day week_of_sales - Single.first_day week_of_sales + 1)%Z /\
  (1 <= len (Single.gap_filled week_of_sales))%Z /\
  Qsum (Single.gap_filled week_of_sales) == Qsum (map snd week_of_sales) /\
  Qsum (Single.grouped_sales week_of_sales) == Qsum (map snd week_of_sales).
Proof.
  apply (gap_filling_keeps_total week_of_sales). discriminate.
Defined.

(** *** The tiers *)

Section Oracles.

Variable adfuller_pvalue : list Q -> option Q.
Variable arima_fit : list Q -> Order -> option FittedModel.
Variable np_std : list Q -> Q.

(** What a result of [forecast_product_sales] looks like, tier by tier. *)
Lemma forecast_tiers (product_data : list Single.Row) (days_ahead : Z)
    (r : ForecastResult) :
  Single.forecast_product_sales adfuller_pvalue arima_fit np_std
      product_data days_ahead = Some r ->
  let daily_sales := Single.gap_filled product_data in
  let fitted := Single.fit_arima_model adfuller_pvalue arima_fit
                                       daily_sales 3 2 3 in
  (3 <= len product_data)%Z /\
  max_daily_demand r
    = Some (series_max (Single.grouped_sales product_data)) /\
  ((method r = ARIMA /\ (6 <= len daily_sales)%Z /\
    params r = snd (fst fitted) /\ confidence_score r = Some 85%Z /\
    exists model fc,
      fst (fst fitted) = Some model /\ forecast model days_ahead = Some fc /\
      forecast_demand r = map (py_max 0) fc /\
      avg_daily_demand r = Some (mean (map (py_max 0) fc)) /\
      forecast_std r =
        Some (if (1 <? len (map (py_max 0) fc))%Z
              then np_std (map (py_max 0) fc) else 0)) \/
   (method r <> ARIMA /\ params r = None /\ forecast_std r = None /\
    exists a,
      avg_daily_demand r = Some a /\
      forecast_demand r = replicate (py_max 0 a) days_ahead /\
      ((method r = weighted_average /\ (7 <= len daily_sales)%Z /\
        confidence_score r = Some 70%Z /\
        a = mean (tail (Z.min 30 (len daily_sales)) daily_sales)) \/
       (method r = moving_average /\ len daily_sales = 6%Z /\
        confidence_score r = Some 68%Z /\ a = mean daily_sales) \/
       (method r = intelligent_average /\ (len daily_sales < 6)%Z /\
        confidence_score r = Some 65%Z /\
        a = intelligent_avg product_data)))).
Proof.
  unfold Single.forecast_product_sales. cbv zeta.
  destruct (Z.ltb_spec (len product_data) 3) as [|Hrows]; [discriminate |].
  assert (product_data <> []) as Hne by (intros ->; cbn in Hrows; lia).
  rewrite (grouped_nonempty product_data Hne). cbn [negb].
  assert ((0 <? len product_data)%Z = true) as -> by (apply Z.ltb_lt; lia).
  assert ((0 <? Single.last_day product_data
                - Single.first_day product_data + 1)%Z = true) as ->.
  { apply Z.ltb_lt.
    destruct (gap_filling_facts product_data Hne) as (<- & ? & _).
    lia. }
  cbn [andb].
  set (daily_sales := Single.gap_filled product_data).
  destruct (Z.leb_spec 6 (len daily_sales)) as [H6|H6].
  - assert (forall r0,
      (let '(avg_daily, method, confidence) :=
         if (7 <=? len daily_sales)%Z
         then (mean (tail (Z.min 30 (len daily_sales)) daily_sales),
               weighted_average, 70%Z)
         else (mean daily_sales, moving_average, 68%Z) in
       Some {| forecast_demand := replicate (py_max 0 avg_daily) days_ahead;
               method := method; params := None;
               avg_daily_demand := Some avg_daily;
               max_daily_demand :=
                 Some (series_max (Single.grouped_sales product_data));
               forecast_std := None;
               confidence_score := Some confidence |}) = Some r0 ->
      max_daily_demand r0
        = Some (series_max (Single.grouped_sales product_data)) /\
      method r0 <> ARIMA /\ params r0 = None /\ forecast_std r0 = None /\
      exists a,
        avg_daily_demand r0 = Some a /\
        forecast_demand r0 = replicate (py_max 0 a) days_ahead /\
        ((method r0 = weighted_average /\ (7 <= len daily_sales)%Z /\
          confidence_score r0 = Some 70%Z /\
          a = mean (tail (Z.min 30 (len daily_sales)) daily_sales)) \/
         (method r0 = moving_average /\ len daily_sales = 6%Z /\
          confidence_score r0 = Some 68%Z /\ a = mean daily_sales) \/
         (method r0 = intelligent_average /\ (len daily_sales < 6)%Z /\
          confidence_score r0 = Some 65%Z /\
          a = intelligent_avg product_data))) as Hfallback.
    { intros r0. destruct (Z.leb_spec 7 (len daily_sales)) as [H7|H7];
        intros H; injection H as <-; cbn;
        (split; [reflexivity |]); (split; [discriminate |]);
        (split; [reflexivity |]); (split; [reflexivity |]);
        eexists; (split; [reflexivity |]); (split; [reflexivity |]).
      - left. repeat split; auto.
      - right. left. repeat split; auto. lia. }
    destruct (Single.fit_arima_model adfuller_pvalue arima_fit
                                     daily_sales 3 2 3)
      as [[[model|] ps] o] eqn:Efit; cbn [fst snd].
    + destruct (forecast model days_ahead) as [fc|] eqn:Efc.
      * intros H. injection H as <-. cbn.
        split; [exact Hrows |]. split; [reflexivity |]. left.
        repeat split; auto. exists model, fc. repeat split; auto.
      * intros H. apply Hfallback in H as (Hm & H).
        split; [exact Hrows |]. split; [exact Hm |]. right. exact H.
    + intros H. apply Hfallback in H as (Hm & H).
      split; [exact Hrows |]. split; [exact Hm |]. right. exact H.
  - intros H. injection H as <-. cbn.
    split; [exact Hrows |]. split; [reflexivity |]. right.
    split; [discriminate |]. split; [reflexivity |]. split; [reflexivity |].
    eexists. split; [reflexivity |]. split; [reflexivity |].
    right. right. repeat split; auto.
Qed.

Lemma three_rows_give_forecast
    (product_data : list Single.Row) (days_ahead : Z) :
  (3 <= len product_data)%Z ->
  exists r, Single.forecast_product_sales adfuller_pvalue arima_fit np_std
              product_data days_ahead = Some r.
Proof.
  intros Hrows. unfold Single.forecast_product_sales. cbv zeta.
  destruct (Z.ltb_spec (len product_data) 3); [lia |].
  rewrite grouped_nonempty by (intros ->; cbn in Hrows; lia).
  cbn [negb].
  repeat match goal with
  | |- context [if ?b then _ else _] => destruct b
  | |- context [match ?x with Some _ => _ | None => _ end] => destruct x
  | |- context [let '(_, _) := ?x in _] => destruct x
  end; eexists; reflexivity.
Qed.

(** X15: the single-product forecaster has a result exactly when the
    product has at least 3 rows; with 3 rows or more it always reaches one
    of its tiers. *)
Theorem forecast_exists_iff_three_rows
    (product_data : list Single.Row) (days_ahead : Z) :
  (exists r, Single.forecast_product_sales adfuller_pvalue arima_fit np_std
               product_data days_ahead = Some r)
  <-> (3 <= len product_data)%Z.
Proof.
  split.
  - intros (r & Hr). apply forecast_tiers in Hr. apply Hr.
  - apply three_rows_give_forecast.
Qed.

(** X16: the tier of a result is decided by the number of days the
    product's dates span: 'intelligent_average' exactly below 6 days,
    'moving_average' only at 6 days, 'weighted_average' only from 7 days,
    'ARIMA' only from 6 days and then with the selected order and
    confidence 85; the method 'average' is never produced here. *)
Theorem tier_follows_span (product_data : list Single.Row) (days_ahead : Z)
    (r : ForecastResult) :
  Single.forecast_product_sales adfuller_pvalue arima_fit np_std
      product_data days_ahead = Some r ->
  let days := len (Single.gap_filled product_data) in
  (method r = intelligent_average <-> (days < 6)%Z) /\
  (method r = moving_average -> days = 6%Z) /\
  (method r = weighted_average -> (7 <= days)%Z) /\
  (method r = ARIMA ->
   (6 <= days)%Z /\ params r <> None /\ confidence_score r = Some 85%Z) /\
  method r <> average.
Proof.
  intros Hr days. pose proof Hr as Ht. apply forecast_tiers in Ht.
  cbv zeta in Ht. fold days in Ht.
  destruct Ht as (_ & _ & [(Hm & H6 & Hp & Hc & model & fc & Hfit & _)
                          |(Hna & _ & _ & a & _ & _ & Ht)]).
  - rewrite Hm. repeat split; try discriminate; try lia; [| exact Hc].
    rewrite Hp. revert Hfit. unfold Single.fit_arima_model.
    destruct (len (Single.gap_filled product_data) <? 6)%Z;
      [discriminate |].
    destruct (Single.differencing _ _) as [ts' d].
    destruct (search _ _ _) as [[[a0 m0] c0]|]; cbn; discriminate.
  - destruct Ht as [(Hm & H7 & _)|[(Hm & H6' & _)|(Hm & H6' & _)]];
      rewrite Hm; repeat split; try discriminate; try lia.
Qed.

End Oracles.

Lemma tier_follows_span_witness :
  let r := mkForecast (replicate (8 # 3) 3) intelligent_average None
                      (Some (8 # 3)) (Some 5) None (Some 65%Z) in
  let days := len (Single.gap_filled
                     [(1%Z, 2); (3%Z, 4); (3%Z, 1); (4%Z, 1)]) in
  (method r = intelligent_average <-> (days < 6)%Z) /\
  (method r = moving_average -> days = 6%Z) /\
  (method r = weighted_average -> (7 <= days)%Z) /\
  (method r = ARIMA ->
   (6 <= days)%Z /\ params r <> None /\ confidence_score r = Some 85%Z) /\
  method r <> average.
Proof.
  apply (tier_follows_span no_pvalue no_fit zero_std
           [(1%Z, 2); (3%Z, 4); (3%Z, 1); (4%Z, 1)] 3).
  reflexivity.
Defined.

Section Pipeline.

Variable adfuller_pvalue : list Q -> option Q.
Variable arima_fit : list Q -> Order -> option FittedModel.
Variable np_std : list Q -> Q.

Lemma replicate_length (x : Q) (n : Z) : len (replicate x n) = Z.max 0 n.
Proof. unfold len, replicate. rewrite repeat_length. lia. Qed.

(** X17: a result of a fallback tier (any method but 'ARIMA') is a flat
    forecast: [max(0, avg_daily_demand)] repeated [days_ahead] times (none
    for a negative [days_ahead]).  It carries no 'forecast_std' key, so the
    planner falls back to its 20% buffer and requires 1.2 times the
    average demand of the window. *)
Theorem fallback_result_is_flat (product_data : list Single.Row)
    (days_ahead : Z) (r : ForecastResult) :
  Single.forecast_product_sales adfuller_pvalue arima_fit np_std
      product_data days_ahead = Some r ->
  method r <> ARIMA ->
  exists a,
    avg_daily_demand r = Some a /\
    forecast_demand r = replicate (py_max 0 a) days_ahead /\
    len (forecast_demand r) = Z.max 0 days_ahead /\
    forecast_std r = None /\
    forall lead safety,
      Planner.required_stock (get_or 0 (avg_daily_demand r))
                             (get_or 0 (forecast_std r)) lead safety
      == a * inject_Z (lead + safety) * (12 # 10).
Proof.
  intros Hr Hm. apply forecast_tiers in Hr. cbv zeta in Hr.
  destruct Hr as (_ & _ & [(Hm' & _)|(_ & _ & Hstd & a & Ha & Hf & _)]);
    [contradiction |].
  exists a. rewrite Ha, Hf, Hstd. repeat split; auto.
  - apply replicate_length.
  - intros lead safety. cbn [get_or].
    unfold Planner.required_stock, Planner.variability_buffer.
    assert (Qltb 0 0 = false) as -> by reflexivity. ring.
Qed.

Lemma count_positive_le (l : list Q) : (Single.count_positive l <= len l)%Z.
Proof.
  unfold Single.count_positive, len.
  pose proof (filter_length_le (fun x => Qltb 0 x) l). lia.
Qed.

(** X18: in the intelligent-average tier the estimate from the transaction
    frequency is the plain daily mean of the gap-filled series (the number
    of transactions cancels), so the reported average is the larger of the
    mean over the days with sales and the mean over all days; when no
    quantity is negative and some day has sales it is the mean over the
    days with sales. *)
Theorem intelligent_average_estimate (product_data : list Single.Row)
    (days_ahead : Z) (r : ForecastResult) :
  Single.forecast_product_sales adfuller_pvalue arima_fit np_std
      product_data days_ahead = Some r ->
  method r = intelligent_average ->
  let daily_sales := Single.gap_filled product_data in
  let total := Qsum (map snd product_data) in
  let active_days := Single.count_positive daily_sales in
  exists a,
    avg_daily_demand r = Some a /\
    mean daily_sales <= a /\
    ((0 < active_days)%Z -> total / inject_Z active_days <= a) /\
    (a == mean daily_sales \/
     ((0 < active_days)%Z /\ a == total / inject_Z active_days)) /\
    (Forall (fun row => 0 <= snd row) product_data -> (0 < active_days)%Z ->
     a == total / inject_Z active_days).
Proof.
  intros Hr Hm daily_sales total active_days.
  apply forecast_tiers in Hr. cbv zeta in Hr.
  destruct Hr as (Hrows & _ & [(Hm' & _)|(_ & _ & _ & a & Ha & _ & Ht)]);
    [rewrite Hm in Hm'; discriminate |].
  destruct Ht as [(Hm' & _)|[(Hm' & _)|(_ & _ & _ & ->)]];
    try (rewrite Hm in Hm'; discriminate).
  exists (intelligent_avg product_data). split; [exact Ha |].
  assert (product_data <> []) as Hne by (intros ->; cbn in Hrows; lia).
  destruct (gap_filling_facts product_data Hne)
    as (Hlen & Hge & Hgf & Hgr).
  fold daily_sales in Hlen, Hge, Hgf. fold total in Hgf, Hgr.
  assert (0 < inject_Z (len product_data)) as Hn
    by (rewrite <- (Zlt_Qlt 0); lia).
  assert (0 < inject_Z (len daily_sales)) as Hd
    by (rewrite <- (Zlt_Qlt 0); lia).
  assert (inject_Z (len product_data)
            / inject_Z (Single.last_day product_data
                        - Single.first_day product_data + 1)
          * (Qsum (Single.grouped_sales product_data)
             / inject_Z (len product_data))
          == mean daily_sales) as Hest.
  { rewrite <- Hlen, Hgr. unfold mean. rewrite Hgf. field. split; lra. }
  unfold intelligent_avg. fold daily_sales active_days.
  set (est := _ / _ * (_ / _)) in *.
  destruct (Z.ltb_spec 0 active_days) as [Hact|Hact].
  - assert (Qsum (Single.grouped_sales product_data) / inject_Z active_days
            == total / inject_Z active_days) as Hav by (rewrite Hgr; reflexivity).
    set (av := Qsum (Single.grouped_sales product_data) / inject_Z active_days)
      in *.
    assert (py_max av est == av \/ py_max av est == est) as Hcase
      by (unfold py_max; destruct (Qltb av est); [right | left]; reflexivity).
    pose proof (py_max_ge_l av est). pose proof (py_max_ge_r av est).
    split; [lra |]. split; [intros _; lra |]. split.
    + destruct Hcase as [Hc|Hc]; [right; split; [exact Hact | lra] | left; lra].
    + intros Hpos _.
      assert (0 <= total) as Htot.
      { unfold total. apply Qsum_nonneg, Forall_forall.
        intros x Hx. apply in_map_iff in Hx as (row & <- & Hrow).
        rewrite Forall_forall in Hpos. apply Hpos, Hrow. }
      assert (est <= av) as Hle.
      { rewrite Hest, Hav. unfold mean. rewrite Hgf.
        assert (0 < inject_Z active_days) as Hq
          by (rewrite <- (Zlt_Qlt 0); exact Hact).
        assert (inject_Z active_days <= inject_Z (len daily_sales)) as Hcnt
          by (rewrite <- Zle_Qle; apply count_positive_le).
        apply Qle_shift_div_l; [exact Hq |].
        assert (total / inject_Z (len daily_sales) * inject_Z active_days
                == total * inject_Z active_days / inject_Z (len daily_sales))
          as -> by (field; lra).
        apply Qle_shift_div_r; [exact Hd |].
        rewrite (Qmult_comm total (inject_Z active_days)),
                (Qmult_comm total (inject_Z (len daily_sales))).
        apply Qmult_le_compat_r; assumption. }
      unfold py_max. destruct (Qltb av est) eqn:E;
        [apply Qltb_true in E; lra | lra].
  - assert (py_max (mean daily_sales) est == mean daily_sales) as Hpm.
    { unfold py_max. destruct (Qltb (mean daily_sales) est) eqn:E;
        [apply Qltb_true in E; lra | reflexivity]. }
    split; [lra |]. split; [lia |]. split; [left; exact Hpm | lia].
Qed.

Lemma fold_py_max_spec (l : list Q) (x : Q) :
  In (fold_left py_max l x) (x :: l) /\
  (forall y, In y (x :: l) -> y <= fold_left py_max l x).
Proof.
  revert x. induction l as [|a l IH]; intros x; cbn [fold_left].
  - split; [left; reflexivity |]. intros y [->|[]]. lra.
  - destruct (IH (py_max x a)) as (Hin & Hub).
    pose proof (py_max_ge_l x a) as Hx. pose proof (py_max_ge_r x a) as Ha.
    split.
    + destruct Hin as [Hin|Hin]; [| right; right; exact Hin].
      rewrite <- Hin. unfold py_max. destruct (Qltb x a); cbn; auto.
    + intros y [->|[->|Hy]].
      * pose proof (Hub _ (or_introl eq_refl)). lra.
      * pose proof (Hub _ (or_introl eq_refl)). lra.
      * apply Hub. right. exact Hy.
Qed.

Lemma in_grouped (product_data : list Single.Row) (v : Q) :
  In v (Single.grouped_sales product_data) <->
  exists row, In row product_data /\
              v = Single.sold_on product_data (fst row).
Proof.
  unfold Single.grouped_sales. rewrite in_map_iff. split.
  - intros (t & <- & Ht). apply filter_In in Ht as (_ & Hrow).
    apply existsb_exists in Hrow as (row & Hin & Heq).
    apply Z.eqb_eq in Heq. exists row. rewrite Heq. auto.
  - intros (row & Hin & ->). exists (fst row). split; [reflexivity |].
    apply filter_In. split.
    + apply in_date_range, dates_within_span, Hin.
    + apply existsb_exists. exists row. split; [exact Hin | apply Z.eqb_refl].
Qed.

(** X19: the reported 'max_daily_demand' is the largest daily total of the
    product: no date of the product sold more, and some date sold exactly
    that much. *)
Theorem max_daily_demand_is_peak (product_data : list Single.Row)
    (days_ahead : Z) (r : ForecastResult) :
  Single.forecast_product_sales adfuller_pvalue arima_fit np_std
      product_data days_ahead = Some r ->
  exists m,
    max_daily_demand r = Some m /\
    (forall row, In row product_data ->
                 Single.sold_on product_data (fst row) <= m) /\
    (exists row, In row product_data /\
                 m = Single.sold_on product_data (fst row)).
Proof.
  intros Hr. apply forecast_tiers in Hr. cbv zeta in Hr.
  destruct Hr as (Hrows & Hmax & _).
  exists (series_max (Single.grouped_sales product_data)).
  split; [exact Hmax |].
  assert (product_data <> []) as Hne by (intros ->; cbn in Hrows; lia).
  pose proof (grouped_nonempty product_data Hne) as Hg.
  pose proof (in_grouped product_data) as Hin.
  destruct (Single.grouped_sales product_data) as [|x l];
    [discriminate Hg |].
  cbn [series_max]. destruct (fold_py_max_spec l x) as (Hmem & Hub).
  split.
  - intros row Hrow. apply Hub, Hin. exists row. auto.
  - apply Hin, Hmem.
Qed.

Lemma sold_on_nonneg (product_data : list Single.Row) (t : Z) :
  Forall (fun row => 0 <= snd row) product_data ->
  0 <= Single.sold_on product_data t.
Proof.
  intros H. unfold Single.sold_on. apply Qsum_nonneg, Forall_forall.
  intros x Hx. apply in_map_iff in Hx as (row & <- & Hrow).
  apply filter_In in Hrow as (Hrow & _).
  rewrite Forall_forall in H. apply H, Hrow.
Qed.

Lemma tail_forall (P : Q -> Prop) (n : Z) (l : list Q) :
  Forall P l -> Forall P (tail n l).
Proof.
  intros H. unfold tail. rewrite <- (firstn_skipn (length l - Z.to_nat n) l) in H.
  apply Forall_app in H. apply H.
Qed.

(** X20: every value of a forecast is at least 0 and, in the ARIMA tier,
    so is the reported average demand; when no row has a negative
    quantity, the average and the maximum daily demand are at least 0 in
    every tier. *)
Theorem forecast_statistics_nonneg (product_data : list Single.Row)
    (days_ahead : Z) (r : ForecastResult) :
  Single.forecast_product_sales adfuller_pvalue arima_fit np_std
      product_data days_ahead = Some r ->
  Forall (fun v => 0 <= v) (forecast_demand r) /\
  (method r = ARIMA -> 0 <= get_or 0 (avg_daily_demand r)) /\
  (Forall (fun row => 0 <= snd row) product_data ->
   exists a m,
     avg_daily_demand r = Some a /\ max_daily_demand r = Some m /\
     0 <= a /\ 0 <= m).
Proof.
  intros Hr.
  pose proof (single_forecast_nonneg _ _ _ _ _ _ Hr) as Hnn.
  apply forecast_tiers in Hr. cbv zeta in Hr.
  destruct Hr as (Hrows & Hmax & Ht).
  split; [exact Hnn |].
  assert (product_data <> []) as Hne by (intros ->; cbn in Hrows; lia).
  assert (Forall (fun row => 0 <= snd row) product_data ->
          0 <= series_max (Single.grouped_sales product_data)) as Hpeak.
  { intros Hpos. pose proof (grouped_nonempty product_data Hne) as Hg.
    pose proof (in_grouped product_data) as Hin.
    destruct (Single.grouped_sales product_data) as [|x l];
      [discriminate Hg |].
    cbn [series_max]. destruct (fold_py_max_spec l x) as (Hmem & _).
    apply Hin in Hmem as (row & _ & ->). apply sold_on_nonneg, Hpos. }
  assert (Forall (fun row => 0 <= snd row) product_data ->
          Forall (fun v => 0 <= v) (Single.gap_filled product_data)) as Hgf.
  { intros Hpos. unfold Single.gap_filled. apply Forall_forall.
    intros v Hv. apply in_map_iff in Hv as (t & <- & _).
    apply sold_on_nonneg, Hpos. }
  destruct Ht as [(Hm & _ & _ & _ & model & fc & _ & _ & Hf & Ha & _)
                 |(Hna & _ & _ & a & Ha & _ & Ht)].
  - assert (0 <= mean (map (py_max 0) fc)) as Hmean
      by (apply mean_nonneg, clamp_forall).
    rewrite Ha. cbn [get_or]. split; [intros _; exact Hmean |].
    intros Hpos. eexists. eexists. split; [reflexivity |].
    split; [exact Hmax |]. split; [exact Hmean | apply Hpeak, Hpos].
  - split; [intros Hm; contradiction |].
    intros Hpos. exists a. eexists. split; [exact Ha |].
    split; [exact Hmax |]. split; [| apply Hpeak, Hpos].
    destruct Ht as [(_ & _ & _ & ->)|[(_ & _ & _ & ->)|(_ & _ & _ & ->)]].
    + apply mean_nonneg, tail_forall, Hgf, Hpos.
    + apply mean_nonneg, Hgf, Hpos.
    + unfold intelligent_avg.
      match goal with |- 0 <= py_max ?u ?v =>
        assert (0 <= u) as Hu; [| pose proof (py_max_ge_l u v); lra] end.
      destruct (Z.ltb_spec 0 (Single.count_positive
                                (Single.gap_filled product_data))) as [Hact|_].
      * unfold Qdiv. apply Qmult_le_0_compat.
        -- apply Qsum_nonneg, Forall_forall. intros v Hv.
           apply in_grouped in Hv as (row & _ & ->).
           apply sold_on_nonneg, Hpos.
        -- apply Qinv_le_0_compat. rewrite <- (Zle_Qle 0). lia.
      * apply mean_nonneg, Hgf, Hpos.
Qed.

End Pipeline.

Lemma fallback_result_is_flat_witness :
  exists a,
    Some (8 # 3) = Some a /\
    replicate (8 # 3) 3 = replicate (py_max 0 a) 3 /\
    len (replicate (8 # 3) 3) = Z.max 0 3 /\
    @None Q = None /\
    forall lead safety,
      Planner.required_stock (get_or 0 (Some (8 # 3))) (get_or 0 None)
                             lead safety
      == a * inject_Z (lead + safety) * (12 # 10).
Proof.
  apply (fallback_result_is_flat no_pvalue no_fit zero_std
           [(1%Z, 2); (3%Z, 4); (3%Z, 1); (4%Z, 1)] 3
           (mkForecast (replicate (8 # 3) 3) intelligent_average None
                       (Some (8 # 3)) (Some 5) None (Some 65%Z))).
  - reflexivity.
  - discriminate.
Defined.

Lemma intelligent_average_estimate_witness :
  exists a,
    Some (8 # 3) = Some a /\
    mean (Single.gap_filled [(1%Z, 2); (3%Z, 4); (3%Z, 1); (4%Z, 1)]) <= a.
Proof.
  destruct (intelligent_average_estimate no_pvalue no_fit zero_std
              [(1%Z, 2); (3%Z, 4); (3%Z, 1); (4%Z, 1)] 3
              (mkForecast (replicate (8 # 3) 3) intelligent_average None
                          (Some (8 # 3)) (Some 5) None (Some 65%Z))
              eq_refl eq_refl) as (a & Ha & Hle & _).
  exists a. split; [exact Ha | exact Hle].
Defined.

Lemma max_daily_demand_is_peak_witness :
  exists m,
    Some 5 = Some m /\
    (forall row, In row [(1%Z, 2); (3%Z, 4); (3%Z, 1); (4%Z, 1)] ->
       Single.sold_on [(1%Z, 2); (3%Z, 4); (3%Z, 1); (4%Z, 1)] (fst row)
       <= m).
Proof.
  destruct (max_daily_demand_is_peak no_pvalue no_fit zero_std
              [(1%Z, 2); (3%Z, 4); (3%Z, 1); (4%Z, 1)] 3
              (mkForecast (replicate (8 # 3) 3) intelligent_average None
                          (Some (8 # 3)) (Some 5) None (Some 65%Z))
              eq_refl) as (m & Hm & Hub & _).
  exists m. split; [exact Hm | exact Hub].
Defined.

Lemma forecast_statistics_nonneg_witness :
  Forall (fun v => 0 <= v) (replicate (8 # 3) 3).
Proof.
  apply (forecast_statistics_nonneg no_pvalue no_fit zero_std
           [(1%Z, 2); (3%Z, 4); (3%Z, 1); (4%Z, 1)] 3
           (mkForecast (replicate (8 # 3) 3) intelligent_average None
                       (Some (8 # 3)) (Some 5) None (Some 65%Z))
           eq_refl).
Defined.

End ForecastMore.

(** ** The batch forecaster and its report *)

Module BatchMore.
Import ForecastFacts.

Section Oracles.

Variable adfuller_pvalue : list Q -> option Q.
Variable arima_fit : list Q -> Order -> option FittedModel.

(** X21: the batch forecaster returns nothing exactly below 6 months; from
    6 to 11 months no model is fitted and the result is the moving
    average, the mean of the series repeated as it is; in general the
    method is 'ARIMA' (only from 12 months, with the selected order),
    'moving_average' or 'average', and the two fallbacks repeat the
    mean. *)
Theorem batch_forecast_shape (monthly_sales : list Q) (months_ahead : Z) :
  (Batch.forecast_product adfuller_pvalue arima_fit monthly_sales months_ahead
     = None <-> (len monthly_sales < 6)%Z) /\
  ((6 <= len monthly_sales < 12)%Z ->
   Batch.forecast_product adfuller_pvalue arima_fit monthly_sales months_ahead
     = Some (mkForecast (replicate (mean monthly_sales) months_ahead)
                        moving_average None None None None None)) /\
  (forall r,
     Batch.forecast_product adfuller_pvalue arima_fit monthly_sales
                            months_ahead = Some r ->
     (method r = ARIMA \/ method r = moving_average \/ method r = average) /\
     (method r = ARIMA -> (12 <= len monthly_sales)%Z /\ params r <> None) /\
     (method r <> ARIMA ->
      forecast_demand r = replicate (mean monthly_sales) months_ahead /\
      params r = None)).
Proof.
  unfold Batch.forecast_product, Batch.fit_arima_model.
  destruct (Z.ltb_spec (len monthly_sales) 6) as [H6|H6].
  - split; [split; [lia | reflexivity] |]. split; [lia |].
    intros r H. discriminate.
  - destruct (Z.ltb_spec (len monthly_sales) 12) as [H12|H12].
    + split; [split; [discriminate | lia] |]. split; [reflexivity |].
      intros r H. injection H as <-. cbn.
      repeat split; auto; discriminate.
    + destruct (Batch.differencing adfuller_pvalue monthly_sales) as [ts d].
      split; [| split; [lia |]].
      * split; [| lia].
        destruct (search arima_fit ts _) as [[[a m] c]|];
          [destruct (forecast m months_ahead) |]; discriminate.
      * intros r.
        destruct (search arima_fit ts _) as [[[a m] c]|];
          [destruct (forecast m months_ahead) |];
          intros H; injection H as <-; cbn;
          repeat split; auto; try discriminate; try contradiction;
          intros Hm; contradiction.
Qed.

Lemma Qsum_le_bound (c : Q) (l : list Q) :
  Forall (fun x => x <= c) l -> Qsum l <= c * inject_Z (len l).
Proof.
  unfold len. induction 1 as [|x l Hx _ IH].
  - change (Qsum []) with 0. change (inject_Z (Z.of_nat (length (@nil Q))))
      with 0. lra.
  - change (Qsum (x :: l)) with (x + Qsum l).
    replace (length (x :: l)) with (S (length l)) by reflexivity.
    rewrite Nat2Z.inj_succ. unfold Z.succ.
    rewrite inject_Z_plus, Qmult_plus_distr_r.
    change (inject_Z 1) with 1. lra.
Qed.

Lemma Qsum_ge_bound (c : Q) (l : list Q) :
  Forall (fun x => c <= x) l -> c * inject_Z (len l) <= Qsum l.
Proof.
  unfold len. induction 1 as [|x l Hx _ IH].
  - change (Qsum []) with 0. change (inject_Z (Z.of_nat (length (@nil Q))))
      with 0. lra.
  - change (Qsum (x :: l)) with (x + Qsum l).
    replace (length (x :: l)) with (S (length l)) by reflexivity.
    rewrite Nat2Z.inj_succ. unfold Z.succ.
    rewrite inject_Z_plus, Qmult_plus_distr_r.
    change (inject_Z 1) with 1. lra.
Qed.

Lemma len_pos_cons {A : Type} (x : A) (l : list A) :
  0 < inject_Z (len (x :: l)).
Proof. unfold len. rewrite <- (Zlt_Qlt 0). cbn [length]. lia. Qed.

Lemma mean_le_bound (c : Q) (l : list Q) :
  l <> [] -> Forall (fun x => x <= c) l -> mean l <= c.
Proof.
  intros Hne H. unfold mean. destruct l as [|x l]; [contradiction |].
  apply Qle_shift_div_r; [apply len_pos_cons | apply Qsum_le_bound, H].
Qed.

Lemma mean_ge_bound (c : Q) (l : list Q) :
  l <> [] -> Forall (fun x => c <= x) l -> c <= mean l.
Proof.
  intros Hne H. unfold mean. destruct l as [|x l]; [contradiction |].
  apply Qle_shift_div_l; [apply len_pos_cons | apply Qsum_ge_bound, H].
Qed.

(** X22: the batch forecast has no negative value when the series has no
    negative month, and in the ARIMA tier whatever the series. *)
Theorem batch_forecast_nonneg (monthly_sales : list Q) (months_ahead : Z)
    (r : ForecastResult) :
  Batch.forecast_product adfuller_pvalue arima_fit monthly_sales months_ahead
    = Some r ->
  Forall (fun v => 0 <= v) monthly_sales \/ method r = ARIMA ->
  Forall (fun v => 0 <= v) (forecast_demand r).
Proof.
  intros Hr [Hpos|Hm].
  - exact (batch_nonneg_on_nonneg_sales _ _ _ _ _ Hpos Hr).
  - exact (batch_arima_nonneg _ _ _ _ _ Hr Hm).
Qed.

End Oracles.

Lemma batch_forecast_shape_witness :
  Batch.forecast_product no_pvalue tie_fit net_returns 12
  = Some (mkForecast (replicate (mean net_returns) 12)
                     moving_average None None None None None).
Proof.
  apply (proj1 (proj2 (batch_forecast_shape no_pvalue tie_fit net_returns 12))).
  split; [vm_compute; discriminate | reflexivity].
Defined.

Lemma batch_forecast_nonneg_witness :
  Forall (fun v => 0 <= v) (replicate (mean six_days) 12).
Proof.
  apply (batch_forecast_nonneg no_pvalue tie_fit six_days 12
           (mkForecast (replicate (mean six_days) 12)
                       moving_average None None None None None)).
  - reflexivity.
  - left. repeat constructor; discriminate.
Defined.

(** *** The restock quantity of the report *)

Section RestockQuantity.
Import Report.

Lemma restock_quantity_of_months
    (forecast_values : list Q) (cs rl lead safety : Z) :
  forecast_values <> [] ->
  let required := mean forecast_values / 30 * inject_Z (lead + safety) in
  let qty := calculate_restock_quantity forecast_values cs rl lead safety in
  (0 <= qty)%Z /\
  (qty = 0%Z <-> required <= inject_Z cs) /\
  required <= inject_Z (cs + qty) /\
  (inject_Z cs < required -> inject_Z (cs + qty) < required + 1) /\
  (forall rl', calculate_restock_quantity forecast_values cs rl' lead safety
               = qty).
Proof.
  intros Hne required qty. unfold qty, calculate_restock_quantity.
  destruct forecast_values as [|x l]; [contradiction |].
  set (fv := x :: l) in *. fold required. unfold py_max.
  destruct (Qltb 0 (required - inject_Z cs)) eqn:E;
    [apply Qltb_true in E | apply Qltb_false in E].
  - pose proof (Qle_ceiling (required - inject_Z cs)) as Hc.
    pose proof (Qceiling_lt (required - inject_Z cs)) as Hl.
    pose proof (PlannerMore.ceiling_pos _ E) as H1.
    rewrite inject_Z_plus.
    unfold Z.sub in Hl. rewrite inject_Z_plus in Hl.
    change (inject_Z (- (1))) with (- (1)) in Hl.
    split; [lia |]. split; [split; [intros H0; lia | intros H0; lra] |].
    split; [lra |]. split; [intros _; lra | reflexivity].
  - change (Qceiling 0) with 0%Z. rewrite Z.add_0_r.
    repeat split; try lia; try lra.
Qed.



(** X24: the monthly plan of the report has one entry per forecast month,
    in order; with the stock taken at the reorder level 10, a month gets a
    restock quantity of 0 exactly when its forecast is at most 100/7 (about
    14.3 units), and the quantity always covers 0.7 times the forecast
    beyond the 10 units in stock. *)
Theorem monthly_plan_threshold (forecast_values : list Q) :
  map fst (monthly_restock forecast_values) = forecast_values /\
  Forall (fun entry =>
            (0 <= snd entry)%Z /\
            (snd entry = 0%Z <-> fst entry <= 100 # 7) /\
            fst entry * (7 # 10) <= inject_Z (10 + snd entry))
         (monthly_restock forecast_values).
Proof.
  unfold monthly_restock. split.
  - rewrite map_map. cbn [fst]. apply map_id.
  - apply Forall_forall. intros entry Hin.
    apply in_map_iff in Hin as (q & <- & _). cbn [fst snd].
    destruct (restock_quantity_of_months [q] 10 10 7 14)
      as (H0 & Hz & Hcov & _); [discriminate |].
    assert (mean [q] / 30 * inject_Z (7 + 14) == q * (7 # 10)) as Hreq.
    { unfold mean, len. cbn [length Qsum fold_right].
      change (inject_Z (Z.of_nat 1)) with 1.
      change (inject_Z (7 + 14)) with 21. field. }
    rewrite Hreq in Hz, Hcov. change (inject_Z 10) with 10 in Hz.
    split; [exact H0 |]. split; [| exact Hcov].
    rewrite Hz. split; intros; lra.
Qed.

End RestockQuantity.

(** *** Spikes and dips *)

Section Statuses.
Import Report.

Lemma status_eq_dec (a b : Status) : {a = b} + {a <> b}.
Proof. decide equality. Defined.

Lemma dip_below (avg x : Q) : month_status avg x = DIP -> x <= avg * (8 # 10).
Proof.
  unfold month_status. qcases; intros H; try discriminate. assumption.
Qed.

Lemma spike_above (avg x : Q) :
  month_status avg x = SPIKE -> avg * (12 # 10) <= x.
Proof.
  unfold month_status. qcases; intros H; try discriminate. assumption.
Qed.

(** X25: with a positive average monthly total, the months cannot all be
    dips nor all be spikes: some month is not a 'DIP' and some month is not
    a 'SPIKE'; months that all equal the same positive total are all
    'NORMAL'.  When every monthly total is 0, the thresholds are both 0 and
    every month is labelled 'SPIKE'. *)
Theorem statuses_against_average (totals : list Q) :
  (0 < mean totals ->
   (exists x, In x totals /\ month_status (mean totals) x <> DIP) /\
   (exists x, In x totals /\ month_status (mean totals) x <> SPIKE)) /\
  (forall c, 0 < c -> totals <> [] -> Forall (fun x => x == c) totals ->
             Forall (fun s => s = NORMAL) (month_statuses totals)) /\
  (Forall (fun x => x == 0) totals ->
   Forall (fun s => s = SPIKE) (month_statuses totals)).
Proof.
  split; [| split].
  - intros Hpos.
    assert (totals <> []) as Hne.
    { intros ->. vm_compute in Hpos. discriminate. }
    split.
    + destruct (Forall_Exists_dec
                  (fun x => month_status (mean totals) x = DIP)
                  (fun x => status_eq_dec _ DIP) totals) as [Hall|Hex].
      * exfalso.
        assert (mean totals <= mean totals * (8 # 10)); [| lra].
        apply mean_le_bound; [exact Hne |].
        apply Forall_forall. intros x Hx. rewrite Forall_forall in Hall.
        apply dip_below, Hall, Hx.
      * apply Exists_exists in Hex. exact Hex.
    + destruct (Forall_Exists_dec
                  (fun x => month_status (mean totals) x = SPIKE)
                  (fun x => status_eq_dec _ SPIKE) totals) as [Hall|Hex].
      * exfalso.
        assert (mean totals * (12 # 10) <= mean totals); [| lra].
        apply mean_ge_bound; [exact Hne |].
        apply Forall_forall. intros x Hx. rewrite Forall_forall in Hall.
        apply spike_above, Hall, Hx.
      * apply Exists_exists in Hex. exact Hex.
  - intros c Hc Hne Hall.
    assert (mean totals == c) as Hmean.
    { apply Qle_antisym.
      - apply mean_le_bound; [exact Hne |].
        eapply Forall_impl; [| exact Hall]. cbn. intros x Hx. lra.
      - apply mean_ge_bound; [exact Hne |].
        eapply Forall_impl; [| exact Hall]. cbn. intros x Hx. lra. }
    unfold month_statuses. apply Forall_forall. intros s Hs.
    apply in_map_iff in Hs as (x & <- & Hx).
    rewrite Forall_forall in Hall. specialize (Hall x Hx).
    unfold month_status. qcases; try reflexivity; lra.
  - intros Hall. destruct totals as [|t ts]; [constructor |].
    assert (mean (t :: ts) == 0) as Hmean.
    { apply Qle_antisym.
      - apply mean_le_bound; [discriminate |].
        eapply Forall_impl; [| exact Hall]. cbn. intros x Hx. lra.
      - apply mean_ge_bound; [discriminate |].
        eapply Forall_impl; [| exact Hall]. cbn. intros x Hx. lra. }
    unfold month_statuses. apply Forall_forall. intros s Hs.
    apply in_map_iff in Hs as (x & <- & Hx).
    rewrite Forall_forall in Hall. specialize (Hall x Hx).
    unfold month_status. qcases; try reflexivity; lra.
Qed.

Lemma statuses_against_average_witness :
  (exists x, In x six_days /\ month_status (mean six_days) x <> DIP) /\
  (exists x, In x six_days /\ month_status (mean six_days) x <> SPIKE).
Proof.
  apply (proj1 (statuses_against_average six_days)). reflexivity.
Defined.

(** X26: the priority of a product grows with its average forecast: 'HIGH'
    exactly from 30, 'LOW' exactly below 15, and a larger average never
    gets a lower priority. *)
Theorem priority_is_monotone (a b : Q) :
  (priority a = HIGH <-> 30 <= a) /\
  (priority a = LOW <-> a < 15) /\
  (a <= b ->
   (priority a = HIGH -> priority b = HIGH) /\
   (priority b = LOW -> priority a = LOW)).
Proof.
  unfold priority. qcases; repeat split; intros;
    try discriminate; try reflexivity; try lra.
Qed.

Lemma priority_is_monotone_witness :
  (priority 40 = HIGH -> priority 50 = HIGH) /\
  (priority 50 = LOW -> priority 40 = LOW).
Proof.
  apply (proj2 (proj2 (priority_is_monotone 40 50))). discriminate.
Defined.

End Statuses.

End BatchMore.

(** ** The batch driver *)

Module DriverMore.
Import Driver.

Section Oracles.

Variable adfuller_pvalue : list Q -> option Q.
Variable arima_fit : list Q -> Order -> option FittedModel.
Variable np_std : list Q -> Q.
Variable rows_of : Z -> list Single.Row.

(** X28: at the driver's stock of 0 and reorder level of 10, a product is
    ordered (at least 10 units) exactly when its forecast average demand is
    positive and gets an order of 0 otherwise; its days until stockout are
    0 or undefined and its understocking risk is always 'medium'. *)
Theorem driver_orders_follow_demand (p : Prediction) :
  made_for adfuller_pvalue arima_fit np_std rows_of p ->
  let avg := get_or 0 (avg_daily_demand (pr_forecast p)) in
  let restock := pr_restock p in
  (0 < avg -> (10 <= suggested_quantity restock)%Z /\
              days_until_stockout restock = Some 0%Z) /\
  (avg <= 0 -> suggested_quantity restock = 0%Z /\
               days_until_stockout restock = None) /\
  optimal_stock restock = suggested_quantity restock /\
  understocking_risk restock = medium.
Proof.
  intros (_ & Hr & _) avg restock. subst restock.
  cbn in Hr. injection Hr as <-. cbn. fold avg.
  set (std := get_or 0 (forecast_std (pr_forecast p))).
  set (maxd := get_or avg (max_daily_demand (pr_forecast p))).
  unfold Planner.suggest, Planner.days_until_depletion.
  split; [| split; [| split]].
  - intros Hpos. pose proof Hpos as Hb. apply Qltb_true in Hb. rewrite Hb.
    cbn [Z.ltb Z.compare]. split; [| reflexivity].
    assert (0 < Planner.required_stock avg std 7 14) as Hreq.
    { unfold Planner.required_stock.
      pose proof (PlannerMore.buffer_pos std avg Hpos).
      change (inject_Z (7 + 14)) with 21. lra. }
    change (inject_Z 0) with 0. apply Qle_bool_false in Hreq. rewrite Hreq.
    apply PlannerFacts.floored_quantity_ge.
  - intros Hneg. pose proof Hneg as Hb. apply Qltb_false in Hb. rewrite Hb.
    split; [| reflexivity].
    assert (Planner.required_stock avg std 7 14 <= 0) as Hreq.
    { unfold Planner.required_stock, Planner.variability_buffer, py_min.
      change (inject_Z (7 + 14)) with 21. qcases; lra. }
    change (inject_Z 0) with 0. apply Qle_bool_iff in Hreq. rewrite Hreq.
    reflexivity.
  - reflexivity.
  - unfold Planner.understock_label.
    destruct (Qltb 0 avg); reflexivity.
Qed.

End Oracles.

Lemma driver_orders_follow_demand_witness :
  (0 < 8 # 3 -> (10 <= 68)%Z /\ Some 0%Z = Some 0%Z) /\
  (8 # 3 <= 0 -> 68%Z = 0%Z /\ Some 0%Z = @None Z) /\
  68%Z = 68%Z /\ medium = medium.
Proof.
  apply (driver_orders_follow_demand no_pvalue no_fit zero_std
           (fun _ => [(1%Z, 2); (3%Z, 4); (3%Z, 1); (4%Z, 1)])
           (mkPrediction 7
              (mkForecast (replicate (8 # 3) 30) intelligent_average None
                          (Some (8 # 3)) (Some 5) None (Some 65%Z))
              (mkRestock 68 (Some 0%Z) (8 # 3) 5 56 38 68 405 0 low medium)
              AI_Enhanced)).
  split; [reflexivity |]. split; [reflexivity |].
  split; intros; discriminate.
Defined.

End DriverMore.

(** ** Synthetic product ids *)

Module DatasetMore.
Import Dataset.

Lemma lookup_app (name : String.string) (d e : Ids) :
  lookup name (d ++ e) =
  match lookup name d with Some v => Some v | None => lookup name e end.
Proof.
  induction d as [|[k v] d IH]; cbn; [reflexivity |].
  destruct (String.eqb name k); [reflexivity | exact IH].
Qed.

Lemma assigned_step (seen : list String.string) (st : Ids * Z * list Z)
    (name : String.string) :
  Assigned seen st -> Assigned (seen ++ [name]) (assign st name).
Proof.
  destruct st as [[d next] ids]. intros [Hids Hinj Hrange Hnext].
  cbn [fst snd] in *. unfold assign.
  assert (len (seen ++ [name]) = (len seen + 1)%Z) as Hlen
    by (unfold len; rewrite length_app; cbn; lia).
  destruct (lookup name d) as [id|] eqn:Hl.
  - constructor; cbn [fst snd]; auto; [| lia].
    apply Forall2_app; [exact Hids | repeat constructor; exact Hl].
  - assert (forall a v, lookup a d = Some v ->
                        lookup a (d ++ [(name, next)]) = Some v) as Hmono
      by (intros a v H; rewrite lookup_app, H; reflexivity).
    assert (forall a v, lookup a (d ++ [(name, next)]) = Some v ->
                        lookup a d = Some v \/
                        (lookup a d = None /\ a = name /\ v = next)) as Hinv.
    { intros a v. rewrite lookup_app.
      destruct (lookup a d) as [w|]; [intros H; left; exact H |].
      cbn. destruct (String.eqb_spec a name) as [->|_]; [| discriminate].
      intros H. injection H as <-. right. auto. }
    constructor; cbn [fst snd].
    + apply Forall2_app.
      * eapply Forall2_impl; [| exact Hids]. cbn. intros a v H.
        apply Hmono, H.
      * repeat constructor. rewrite lookup_app, Hl. cbn.
        rewrite String.eqb_refl. reflexivity.
    + intros a b v Ha Hb.
      apply Hinv in Ha as [Ha|(_ & -> & ->)];
        apply Hinv in Hb as [Hb|(_ & -> & Hv)].
      * exact (Hinj a b v Ha Hb).
      * subst v. apply Hrange in Ha. lia.
      * apply Hrange in Hb. lia.
      * reflexivity.
    + intros a v Ha. apply Hinv in Ha as [Ha|(_ & _ & ->)];
        [apply Hrange in Ha |]; lia.
    + lia.
Qed.

Lemma assigned_fold (names seen : list String.string)
    (st : Ids * Z * list Z) :
  Assigned seen st -> Assigned (seen ++ names) (fold_left assign names st).
Proof.
  revert seen st. induction names as [|name names IH]; intros seen st H.
  - rewrite app_nil_r. exact H.
  - cbn [fold_left].
    replace (seen ++ name :: names) with ((seen ++ [name]) ++ names)
      by (rewrite <- app_assoc; reflexivity).
    apply IH, assigned_step, H.
Qed.

Lemma forall2_nth {A B : Type} (R : A -> B -> Prop) (l1 : list A)
    (l2 : list B) (a : A) (b : B) (i : nat) :
  Forall2 R l1 l2 -> (i < length l1)%nat -> R (nth i l1 a) (nth i l2 b).
Proof.
  intros H. revert i. induction H as [|x y l1 l2 Hxy _ IH]; intros i Hi.
  - cbn in Hi. lia.
  - destruct i as [|i]; [exact Hxy |]. cbn in *. apply IH. lia.
Qed.

(** X29: the synthetic product ids identify the product names: there is
    one id per row, two rows get the same id exactly when they carry the
    same name, and every id lies between 1 and the number of rows. *)
Theorem product_ids_identify_names (names : list String.string) :
  let ids := assign_product_ids names in
  length ids = length names /\
  (forall i j, (i < length names)%nat -> (j < length names)%nat ->
     (nth i ids 0%Z = nth j ids 0%Z <->
      nth i names String.EmptyString = nth j names String.EmptyString)) /\
  Forall (fun id => (1 <= id <= len names)%Z) ids.
Proof.
  intros ids. unfold ids, assign_product_ids.
  assert (Assigned [] ([], 1%Z, [])) as H0.
  { constructor; cbn; try constructor; try discriminate; lia. }
  apply (assigned_fold names []) in H0. cbn [app] in H0.
  destruct (fold_left assign names ([], 1%Z, [])) as [[d next] out].
  destruct H0 as [Hids Hinj Hrange Hnext]. cbn [fst snd] in *.
  split; [symmetry; exact (Forall2_length Hids) |]. split.
  - intros i j Hi Hj.
    pose proof (forall2_nth _ _ _ String.EmptyString 0%Z i Hids Hi) as Ri.
    pose proof (forall2_nth _ _ _ String.EmptyString 0%Z j Hids Hj) as Rj.
    cbn in Ri, Rj. split.
    + intros Heq. rewrite Heq in Ri. exact (Hinj _ _ _ Ri Rj).
    + intros Heq. rewrite Heq in Ri. rewrite Ri in Rj.
      injection Rj as ->. reflexivity.
  - apply Forall_forall. intros id Hin.
    apply (In_nth _ _ 0%Z) in Hin as (i & Hi & <-).
    rewrite <- (Forall2_length Hids) in Hi.
    pose proof (forall2_nth _ _ _ String.EmptyString 0%Z i Hids Hi) as Ri.
    cbn in Ri. apply Hrange in Ri. lia.
Qed.

End DatasetMore.
